(** * ClamWin database updater: a shallow embedding of [clamwin_updater.py]

    The script is a linear procedure over two pieces of environment, the
    file system and the HTTP server, so the embedding is a state-and-error
    monad over a [world] (file system, standard output, a fault clock)
    and a read-only [env] (platform, injectable OS faults, what the server
    answers for each URL).  Python exceptions are values of [exn]; a
    [try ... except] chain is [try_except] with the clauses in source order.

    Standard output comes in two readings.  [print] is the one of a
    stream that takes every line, and the run of the whole script is read
    with it.  [print_to] is the one of a stream that may refuse a line it
    cannot encode, and [download_file_to] is [download_file] read with it.

    What is left out: the 300 second timeout shows only as the exception
    it ends in; signals from outside the program ([KeyboardInterrupt],
    [SystemExit]), which are no instances of [Exception] and which the
    script leaves to the runtime, are not exceptions of the model. *)

From Stdlib Require Import ZArith String Ascii List QArith.

From stdpp Require Import base gmap strings list.

Local Open Scope Z_scope.

(* ===================================================================== *)
(** ** Exceptions *)
(* ===================================================================== *)

(** The instances of [Exception] the script can meet, with the class
    hierarchy of Python: [HTTPError <: URLError <: OSError <: Exception].
    [OtherException] is any [Exception] outside [OSError] (for instance the
    [ValueError] of [int]). *)
Inductive exn : Type :=
| HTTPError (code : Z) (reason : string)
| URLError (reason : string)
| OSError (strerror : string)
| OtherException (text : string).

Definition is_HTTPError (e : exn) : bool :=
  match e with HTTPError _ _ => true | _ => false end.

Definition is_URLError (e : exn) : bool :=
  match e with HTTPError _ _ | URLError _ => true | _ => false end.

Definition is_OSError (e : exn) : bool :=
  match e with HTTPError _ _ | URLError _ | OSError _ => true | _ => false end.

Definition is_Exception (e : exn) : bool := true.

(** [e.code], [e.reason] and [str(e)].  No [HTTPError] and no [URLError]
    ever reaches a clause that formats with [str], so for these two the
    text is only indicative. *)
Definition exn_code (e : exn) : Z :=
  match e with HTTPError c _ => c | _ => 0 end.

Definition exn_reason (e : exn) : string :=
  match e with
  | HTTPError _ r | URLError r => r
  | OSError s | OtherException s => s
  end.

Definition exn_str (e : exn) : string :=
  match e with
  | HTTPError _ r => "HTTP Error: " +:+ r
  | URLError r => "<urlopen error " +:+ r +:+ ">"
  | OSError s | OtherException s => s
  end.

(* ===================================================================== *)
(** ** Paths *)
(* ===================================================================== *)

Inductive flavour : Type := Posix | Nt.

Definition os_sep (fl : flavour) : string :=
  match fl with Posix => "/" | Nt => "\" end.

Fixpoint last_char (s : string) : option ascii :=
  match s with
  | EmptyString => None
  | String c EmptyString => Some c
  | String _ s' => last_char s'
  end.

Definition is_sep (fl : flavour) (c : ascii) : bool :=
  match fl with
  | Posix => Ascii.eqb c "/"
  | Nt => Ascii.eqb c "/" || Ascii.eqb c "\"
  end.

(** A bare drive, [C:], after which [ntpath.join] adds no separator. *)
Definition is_bare_drive (fl : flavour) (s : string) : bool :=
  match fl, s with
  | Nt, String _ (String c EmptyString) => Ascii.eqb c ":"
  | _, _ => false
  end.

(** What [os.path.join] puts in front of a relative name. *)
Definition dir_prefix (fl : flavour) (a : string) : string :=
  match last_char a with
  | None => a
  | Some c =>
      if is_sep fl c || is_bare_drive fl a then a else a +:+ os_sep fl
  end.

(** [os.path.join(a, b)] for a relative [b] without a drive, which is how
    the script calls it: the second component is one of the three target
    names or [backup]. *)
Definition path_join (fl : flavour) (a b : string) : string :=
  dir_prefix fl a +:+ b.

(* ===================================================================== *)
(** ** The world *)
(* ===================================================================== *)

Inductive node : Type :=
| File (content : list Byte.byte)
| Dir.

(** One constructor per [print] of the script.  A message keeps the values
    the text is formatted from: [MDownloading d] and [MSuccess d] carry the
    destination whose base name is shown, [MProgress n t] the two byte
    counts from which the percentage is computed. *)
Inductive msg : Type :=
| MDownloading (destination : string)
| MProgress (downloaded total_size : Z)
| MSuccess (destination : string)
| MHttpError (code : Z) (reason : string)
| MBlockedNote
| MUrlError (reason : string)
| MError (text : string)
| MCreatedBackupDir (backup_dir : string)
| MBackedUp (filename : string)
| MBackupWarning (filename text : string)
| MNoFilesToBackup
| MBackupFailed (text : string)
| MDirMissing (db_dir : string)
| MCreating
| MCreatedDir (db_dir : string)
| MCouldNotCreate (text : string)
| MBackupHeader
| MDownloadHeader
| MSource
| MDestination (db_dir : string)
| MBlank
| MRule
| MSummary (success_count total_count : Z)
| MCompleted
| MRestart
| MSomeFailed
| MPartial
| MBanner.

(** The calls into the operating system that can fail for reasons the
    script does not control (permissions, a full disk, a locked file). *)
Inductive fs_op : Type :=
| OpMakedirs (p : string)
| OpRemove (p : string)
| OpRename (src dst : string)
| OpOpen (p : string)
| OpWrite (p : string) (chunk : list Byte.byte)
| OpClose (p : string).

Record world : Type := World {
  fs : gmap string node;
  out : list msg;
  tick : nat
}.

(** The [content-length] header as [int(headers.get('content-length', 0))]
    reads it: absent (the default 0), the text of an integer, or a text
    that [int] rejects with [ValueError]. *)
Inductive header_int : Type :=
| NoHeader
| IntHeader (n : Z)
| BadHeader (text : string).

(** One [response.read(8192)]: some bytes (at most 8192, a bound that
    plays no part below), or an exception; the end of the list is the end
    of the stream, where [read] returns [b'']. *)
Inductive read_result : Type :=
| ReadBytes (chunk : list Byte.byte)
| ReadRaises (e : exn).

Record response : Type := Response {
  content_length : header_int;
  body : list read_result
}.

Inductive urlopen_outcome : Type :=
| UrlopenRaises (e : exn)
| UrlopenOk (r : response).

Record env : Type := Env {
  platform : flavour;
  fs_fault : nat -> fs_op -> option string;
  server : string -> urlopen_outcome
}.

(* ===================================================================== *)
(** ** The monad *)
(* ===================================================================== *)

Inductive outcome (A : Type) : Type :=
| Returns (a : A)
| Raises (e : exn).

Arguments Returns {A} a.

Arguments Raises {A} e.

Definition M (A : Type) : Type := world -> outcome A * world.

Definition ret {A} (a : A) : M A := fun w => (Returns a, w).

Definition raise {A} (e : exn) : M A := fun w => (Raises e, w).

Definition bind {A B} (c : M A) (k : A -> M B) : M B :=
  fun w =>
    match c w with
    | (Returns a, w') => k a w'
    | (Raises e, w') => (Raises e, w')
    end.

Notation "x <- c ;; k" := (bind c (fun x => k))
  (at level 100, c at next level, right associativity).

Notation "c ;;; k" := (bind c (fun _ => k))
  (at level 100, right associativity).

(** An [except] clause: the class test and the handler body. *)
Definition handler (A : Type) : Type := ((exn -> bool) * (exn -> M A))%type.

(** The first clause whose class matches runs; with none, the exception
    goes on to the caller. *)
Fixpoint dispatch {A} (hs : list (handler A)) (e : exn) : M A :=
  match hs with
  | [] => raise e
  | (cls, h) :: hs' => if cls e then h e else dispatch hs' e
  end.

Definition try_except {A} (c : M A) (hs : list (handler A)) : M A :=
  fun w =>
    match c w with
    | (Returns a, w') => (Returns a, w')
    | (Raises e, w') => dispatch hs e w'
    end.

Definition when (b : bool) (c : M unit) : M unit := if b then c else ret tt.

Definition print (m : msg) : M unit :=
  fun w => (Returns tt, World (fs w) (out w ++ [m]) (tick w)).

(* ===================================================================== *)
(** ** The operating system and the network *)
(* ===================================================================== *)

Definition set_fs (f : gmap string node) (w : world) : world :=
  World f (out w) (tick w).

Definition advance (w : world) : world :=
  World (fs w) (out w) (S (tick w)).

Section Program.

Variable E : env.

(** [os.path.exists]: never raises. *)
Definition path_exists (p : string) : M bool :=
  fun w => (Returns (bool_decide (is_Some (fs w !! p))), w).

(** A call that the environment may refuse: it consumes one tick of the
    fault clock, and raises [OSError] when a fault is scheduled for it. *)
Definition os_call (op : fs_op) (effect : gmap string node -> gmap string node)
  : M unit :=
  fun w =>
    match fs_fault E (tick w) op with
    | Some err => (Raises (OSError err), advance w)
    | None => (Returns tt, advance (set_fs (effect (fs w)) w))
    end.

(** [os.makedirs(p)] with [exist_ok=False].  Only the leaf is recorded:
    the script never looks at an ancestor after it has created a leaf.
    The missing ancestors that the call creates on the way are therefore
    not in the map, and no claim below speaks of the ancestors of a
    directory that the script creates. *)
Definition os_makedirs (p : string) : M unit :=
  fun w =>
    match fs w !! p with
    | Some _ => (Raises (OSError "File exists"), advance w)
    | None => os_call (OpMakedirs p) (insert p Dir) w
    end.

(** [os.remove(p)]: a regular file only. *)
Definition os_remove (p : string) : M unit :=
  fun w =>
    match fs w !! p with
    | None => (Raises (OSError "No such file or directory"), advance w)
    | Some Dir => (Raises (OSError "Is a directory"), advance w)
    | Some (File _) => os_call (OpRemove p) (delete p) w
    end.

(** [os.rename(src, dst)].  On Windows an existing [dst] is an error; on
    POSIX a file replaces a file and a directory never trades places with
    a file. *)
Definition rename_allowed (fl : flavour) (s : node) (d : option node) : bool :=
  match d, fl with
  | None, _ => true
  | Some _, Nt => false
  | Some (File _), Posix => match s with File _ => true | Dir => false end
  | Some Dir, Posix => match s with File _ => false | Dir => true end
  end.

Definition os_rename (src dst : string) : M unit :=
  fun w =>
    match fs w !! src with
    | None => (Raises (OSError "No such file or directory"), advance w)
    | Some n =>
        if rename_allowed (platform E) n (fs w !! dst)
        then os_call (OpRename src dst) (fun f => <[dst := n]> (delete src f)) w
        else (Raises (OSError "Cannot create a file when that file already exists"),
              advance w)
    end.

(** [open(p, 'wb')]: creates or truncates.  The map is keyed by whole
    paths, so a missing parent directory, for which the call raises, is
    one of the faults that the environment schedules for [OpOpen]. *)
Definition open_wb (p : string) : M unit :=
  fun w =>
    match fs w !! p with
    | Some Dir => (Raises (OSError "Is a directory"), advance w)
    | _ => os_call (OpOpen p) (insert p (File [])) w
    end.

Definition file_content (f : gmap string node) (p : string) : list Byte.byte :=
  match f !! p with
  | Some (File c) => c
  | _ => []
  end.

(** [f.write(chunk)] on the file opened at [p]; writes are taken to reach
    the file at once. *)
Definition f_write (p : string) (chunk : list Byte.byte) : M unit :=
  os_call (OpWrite p chunk) (fun f => <[p := File (file_content f p ++ chunk)]> f).

Definition f_close (p : string) : M unit :=
  os_call (OpClose p) (fun f => f).

(** [with open(p, 'wb') as f: c]: the file is closed on every way out of
    [c], and an error of the close is the one that is raised. *)
Definition with_open_wb {A} (p : string) (c : M A) : M A :=
  open_wb p ;;;
  fun w =>
    match c w with
    | (r, w') =>
        match f_close p w' with
        | (Returns _, w'') => (r, w'')
        | (Raises e, w'') => (Raises e, w'')
        end
    end.

(** [urllib.request.urlopen(req, timeout=300)]. *)
Definition urlopen (url : string) : M response :=
  fun w =>
    match server E url with
    | UrlopenRaises e => (Raises e, w)
    | UrlopenOk r => (Returns r, w)
    end.

(** [int(response.headers.get('content-length', 0))]. *)
Definition int_content_length (h : header_int) : M Z :=
  match h with
  | NoHeader => ret 0
  | IntHeader n => ret n
  | BadHeader s => raise (OtherException ("invalid literal for int(): " +:+ s))
  end.

(* ===================================================================== *)
(** ** The script *)
(* ===================================================================== *)

(** [DATABASE_URLS], in the insertion order that [.keys()] and [.items()]
    follow. *)
Definition DATABASE_URLS : list (string * string) :=
  [ ("main.cvd", "https://database.clamav.net/main.cvd");
    ("daily.cvd", "https://database.clamav.net/daily.cvd");
    ("bytecode.cvd", "https://database.clamav.net/bytecode.cvd") ].

Definition len (chunk : list Byte.byte) : Z := Z.of_nat (length chunk).

(** The [while True] of [download_file], one iteration per [read]. *)
Fixpoint read_loop (destination : string) (total_size : Z)
    (stream : list read_result) (downloaded : Z) : M unit :=
  match stream with
  | [] => ret tt
  | ReadRaises e :: _ => raise e
  | ReadBytes chunk :: rest =>
      match chunk with
      | [] => ret tt
      | _ :: _ =>
          f_write destination chunk ;;;
          let downloaded := (downloaded + len chunk)%Z in
          when (0 <? total_size)%Z
            (print (MProgress downloaded total_size)) ;;;
          read_loop destination total_size rest downloaded
      end
  end.

Definition download_file (url destination : string) : M bool :=
  try_except
    (print (MDownloading destination) ;;;
     response <- urlopen url ;;
     total_size <- int_content_length (content_length response) ;;
     with_open_wb destination
       (read_loop destination total_size (body response) 0) ;;;
     print (MSuccess destination) ;;;
     ret true)
    [ (is_HTTPError, fun e =>
         print (MHttpError (exn_code e) (exn_reason e)) ;;;
         when (exn_code e =? 403)%Z (print MBlockedNote) ;;;
         ret false);
      (is_URLError, fun e =>
         print (MUrlError (exn_reason e)) ;;;
         ret false);
      (is_Exception, fun e =>
         print (MError (exn_str e)) ;;;
         ret false) ].

(** The inner [try] of [backup_existing_files]: one file's rotation. *)
Definition rotate (filename filepath backup_path : string) : M unit :=
  try_except
    (old <- path_exists backup_path ;;
     when old (os_remove backup_path) ;;;
     os_rename filepath backup_path ;;;
     print (MBackedUp filename))
    [ (is_OSError, fun e => print (MBackupWarning filename (exn_str e))) ].

(** The [for filename in DATABASE_URLS.keys()] loop; it returns
    [has_files]. *)
Fixpoint backup_loop (db_dir backup_dir : string) (names : list string)
    (has_files : bool) : M bool :=
  match names with
  | [] => ret has_files
  | filename :: rest =>
      let filepath := path_join (platform E) db_dir filename in
      present <- path_exists filepath ;;
      if present then
        made <- path_exists backup_dir ;;
        when (negb made)
          (os_makedirs backup_dir ;;;
           print (MCreatedBackupDir backup_dir)) ;;;
        let backup_path := path_join (platform E) backup_dir filename in
        rotate filename filepath backup_path ;;;
        backup_loop db_dir backup_dir rest true
      else backup_loop db_dir backup_dir rest has_files
  end.

Definition backup_existing_files (db_dir : string) : M bool :=
  try_except
    (let backup_dir := path_join (platform E) db_dir "backup" in
     has_files <- backup_loop db_dir backup_dir (map fst DATABASE_URLS) false ;;
     when (negb has_files) (print MNoFilesToBackup) ;;;
     ret true)
    [ (is_Exception, fun e =>
         print (MBackupFailed (exn_str e)) ;;;
         ret true) ].

(** The [for filename, url in DATABASE_URLS.items()] loop; it returns
    [success_count]. *)
Fixpoint download_loop (db_dir : string) (items : list (string * string))
    (success_count : Z) : M Z :=
  match items with
  | [] => ret success_count
  | (filename, url) :: rest =>
      let destination := path_join (platform E) db_dir filename in
      ok <- download_file url destination ;;
      print MBlank ;;;
      download_loop db_dir rest
        (if ok then (success_count + 1)%Z else success_count)
  end.

(** The directory check at the head of [update_database]; [false] is its
    [return False]. *)
Definition prepare_directory (db_dir : string) : M bool :=
  present <- path_exists db_dir ;;
  if present then ret true
  else
    print (MDirMissing db_dir) ;;;
    print MCreating ;;;
    try_except
      (os_makedirs db_dir ;;;
       print (MCreatedDir db_dir) ;;;
       ret true)
      [ (is_Exception, fun e =>
           print (MCouldNotCreate (exn_str e)) ;;;
           ret false) ].

Definition update_database (db_dir : string) (backup : bool) : M bool :=
  ready <- prepare_directory db_dir ;;
  if negb ready then ret false
  else
    when backup
      (print MBackupHeader ;;;
       _ <- backup_existing_files db_dir ;;
       ret tt) ;;;
    print MDownloadHeader ;;;
    print MSource ;;;
    print (MDestination db_dir) ;;;
    let total_count := Z.of_nat (length DATABASE_URLS) in
    success_count <- download_loop db_dir DATABASE_URLS 0 ;;
    print MRule ;;;
    print (MSummary success_count total_count) ;;;
    if (success_count =? total_count)%Z then
      print MCompleted ;;;
      print MRestart ;;;
      ret true
    else
      print MSomeFailed ;;;
      when (0 <? success_count)%Z (print MPartial) ;;;
      ret false.

(** What [parser.parse_args()] hands to [main]: the namespace, or the
    [SystemExit] that argparse raises itself ([--version] leaves with 0, a
    usage error with 2). *)
Inductive parsed : Type :=
| Namespace (db_dir : string) (no_backup : bool)
| ParserExit (status : Z).

(** [main]; the value returned is the argument of [sys.exit]. *)
Definition main (args : parsed) : M Z :=
  match args with
  | ParserExit status => ret status
  | Namespace db_dir no_backup =>
      print MRule ;;;
      print MBanner ;;;
      print MRule ;;;
      print MBlank ;;;
      success <- update_database db_dir (negb no_backup) ;;
      ret (if success then 0 else 1)
  end.

(** The exit status of the process: the argument of [sys.exit], or 1 when
    an exception reaches the top level. *)
Definition exit_status (r : outcome Z) : Z :=
  match r with
  | Returns status => status
  | Raises _ => 1
  end.

End Program.

(** The state of a process at its start: nothing printed yet. *)
Definition boot (f : gmap string node) : world := World f [] 0.

(* ===================================================================== *)
(** ** A standard output that can refuse a line *)
(* ===================================================================== *)

(** [print] encodes its text for [sys.stdout].  A stream whose encoding
    lacks a character of the text raises [UnicodeEncodeError], which is a
    [ValueError], and takes nothing of the line.  A [console] gives for a
    line the text of that error, or [None] when the stream takes it. *)
Definition console : Type := msg -> option string.

Definition print_to (stdout : console) (m : msg) : M unit :=
  fun w =>
    match stdout m with
    | Some err => (Raises (OtherException err), w)
    | None => print m w
    end.

Section Console.

Variable E : env.

Variable stdout : console.

(** The [while True] of [download_file], printing to [stdout]. *)
Fixpoint read_loop_to (destination : string) (total_size : Z)
    (stream : list read_result) (downloaded : Z) : M unit :=
  match stream with
  | [] => ret tt
  | ReadRaises e :: _ => raise e
  | ReadBytes chunk :: rest =>
      match chunk with
      | [] => ret tt
      | _ :: _ =>
          f_write E destination chunk ;;;
          let downloaded := (downloaded + len chunk)%Z in
          when (0 <? total_size)%Z
            (print_to stdout (MProgress downloaded total_size)) ;;;
          read_loop_to destination total_size rest downloaded
      end
  end.

(** [download_file], printing to [stdout]: the [print] calls of the
    [try] body and of the three [except] clauses can raise like any other
    statement there. *)
Definition download_file_to (url destination : string) : M bool :=
  try_except
    (print_to stdout (MDownloading destination) ;;;
     response <- urlopen E url ;;
     total_size <- int_content_length (content_length response) ;;
     with_open_wb E destination
       (read_loop_to destination total_size (body response) 0) ;;;
     print_to stdout (MSuccess destination) ;;;
     ret true)
    [ (is_HTTPError, fun e =>
         print_to stdout (MHttpError (exn_code e) (exn_reason e)) ;;;
         when (exn_code e =? 403)%Z (print_to stdout MBlockedNote) ;;;
         ret false);
      (is_URLError, fun e =>
         print_to stdout (MUrlError (exn_reason e)) ;;;
         ret false);
      (is_Exception, fun e =>
         print_to stdout (MError (exn_str e)) ;;;
         ret false) ].

End Console.

(** The lines whose text has a check mark (U+2713) or a ballot cross
    (U+2717): the success line and the three error lines of
    [download_file], the two lines about the creation of the directory, and
    the two verdicts of the summary. *)
Definition has_mark (m : msg) : bool :=
  match m with
  | MSuccess _ | MHttpError _ _ | MUrlError _ | MError _
  | MCreatedDir _ | MCouldNotCreate _ | MCompleted | MSomeFailed => true
  | _ => false
  end.

Definition charmap_error : string :=
  "'charmap' codec can't encode character".

(** A stream in an encoding without the two marks, such as cp1252 (the
    script's output redirected to a file or a pipe on Windows) or ASCII. *)
Definition legacy_stdout : console :=
  fun m => if has_mark m then Some charmap_error else None.

(** A stream that takes every line. *)
Definition accepting_stdout : console := fun _ => None.

(* ===================================================================== *)
(** ** Vocabulary of the statements *)
(* ===================================================================== *)

(** The three target names, in iteration order. *)
Definition target_names : list string := map fst DATABASE_URLS.

Definition destination_of (fl : flavour) (db_dir name : string) : string :=
  path_join fl db_dir name.

Definition backup_dir_of (fl : flavour) (db_dir : string) : string :=
  path_join fl db_dir "backup".

(** The one place where the backup of [name] lives. *)
Definition backup_slot (fl : flavour) (db_dir name : string) : string :=
  path_join fl (backup_dir_of fl db_dir) name.

(** The destinations announced as downloaded, in order. *)
Definition successes (l : list msg) : list string :=
  omap (fun m => match m with MSuccess d => Some d | _ => None end) l.


(** The chunks a stream delivers before its end: an empty read, an error
    or the end of the list stops it. *)
Fixpoint chunks (stream : list read_result) : list (list Byte.byte) :=
  match stream with
  | ReadBytes (b :: c) :: rest => (b :: c) :: chunks rest
  | _ => []
  end.

(** Whether the stream ends without an error. *)
Fixpoint ends_cleanly (stream : list read_result) : bool :=
  match stream with
  | [] => true
  | ReadBytes [] :: _ => true
  | ReadBytes (_ :: _) :: rest => ends_cleanly rest
  | ReadRaises _ :: _ => false
  end.

(** The byte counts after each chunk, starting from [downloaded]. *)
Fixpoint running (downloaded : Z) (cs : list (list Byte.byte)) : list Z :=
  match cs with
  | [] => []
  | c :: cs' => (downloaded + len c)%Z :: running (downloaded + len c)%Z cs'
  end.

(** The total the script divides by: what [int] made of the header. *)
Definition declared_size (h : header_int) : Z :=
  match h with IntHeader n => n | _ => 0%Z end.


(** No fault is ever scheduled. *)
Definition fault_free (E : env) : Prop :=
  forall t op, fs_fault E t op = None.

(** Successive complete runs with backups enabled, on one platform, each
    under its own faults and server answers. *)
Definition run_many (fl : flavour)
    (runs : list ((nat -> fs_op -> option string) * (string -> urlopen_outcome)))
    (db_dir : string) (w : world) : world :=
  fold_left
    (fun w r => snd (update_database (Env fl r.1 r.2) db_dir true w))
    runs w.

(** Every path a run may create or change in the map (the ancestors of
    the database directory, which the map does not record, apart). *)
Definition run_paths (fl : flavour) (db_dir : string) : list string :=
  db_dir :: backup_dir_of fl db_dir
    :: map (destination_of fl db_dir) target_names
    ++ map (backup_slot fl db_dir) target_names.

(** The suffixes, after the prefix of [db_dir], of every path below it that
    the script names. *)
Definition suffixes (fl : flavour) : list string :=
  "backup" :: target_names
    ++ map (fun n => "backup" +:+ os_sep fl +:+ n) target_names.

(** The part of the run a message belongs to. *)
Inductive phase : Type := Downloading | BackingUp | Controlling.

Definition phase_of (m : msg) : phase :=
  match m with
  | MDownloading _ | MProgress _ _ | MSuccess _ | MHttpError _ _
  | MBlockedNote | MUrlError _ | MError _ => Downloading
  | MBackupHeader | MCreatedBackupDir _ | MBackedUp _ | MBackupWarning _ _
  | MNoFilesToBackup | MBackupFailed _ => BackingUp
  | _ => Controlling
  end.

(** The progress lines of a stream of which [written] chunks reached the
    file. *)
Definition progress_lines (ts dl : Z) (written : list (list Byte.byte))
  : list msg :=
  if (0 <? ts)%Z then map (fun d => MProgress d ts) (running dl written)
  else [].

(** What the [except] clauses of [download_file] print for an exception. *)
Definition report (e : exn) : list msg :=
  match e with
  | HTTPError c r => MHttpError c r :: (if (c =? 403)%Z then [MBlockedNote] else [])
  | URLError r => [MUrlError r]
  | _ => [MError (exn_str e)]
  end.

(** The body of the [try] of [download_file]. *)
Definition download_body (E : env) (url destination : string) : M bool :=
  print (MDownloading destination) ;;;
  response <- urlopen E url ;;
  total_size <- int_content_length (content_length response) ;;
  with_open_wb E destination
    (read_loop E destination total_size (body response) 0) ;;;
  print (MSuccess destination) ;;;
  ret true.

(** Membership in a list built from conses and appends. *)
Ltac elem :=
  repeat first [rewrite elem_of_cons | rewrite elem_of_app]; tauto.

(** The destination list of a list of (name, URL) items. *)
Definition destinations (fl : flavour) (db_dir : string)
    (items : list (string * string)) : list string :=
  map (fun it => destination_of fl db_dir it.1) items.

(** Whether the server refuses a URL outright. *)
Definition refused (E : env) (url : string) : bool :=
  match server E url with UrlopenRaises _ => true | UrlopenOk _ => false end.

(** What a run shows and leaves for one item. *)
Definition item_outcome (E : env) (db_dir : string) (l : list msg)
    (f' : gmap string node) (it : string * string) : Prop :=
  let d := destination_of (platform E) db_dir it.1 in
  MDownloading d ∈ l
  /\ (forall r, server E it.2 = UrlopenRaises (HTTPError 403 r) ->
        MHttpError 403 r ∈ l /\ MBlockedNote ∈ l)
  /\ (MSuccess d ∈ l -> exists resp,
        server E it.2 = UrlopenOk resp
        /\ ends_cleanly (body resp) = true
        /\ f' !! d = Some (File (concat (chunks (body resp))))).

(** Why the rotation of one file can end in a warning. *)
Definition rotation_blocked (E : env) (f : gmap string node)
    (filepath backup_path : string) : Prop :=
  f !! filepath = None
  \/ f !! backup_path = Some Dir
  \/ (exists t err, fs_fault E t (OpRemove backup_path) = Some err)
  \/ (exists t err, fs_fault E t (OpRename filepath backup_path) = Some err).

(** The two ways one rotation ends: the file now sits in the slot, in the
    place of whatever was there, or a warning was printed and the file was
    left where it was. *)
Definition rotated (E : env) (name filepath backup_path : string)
    (w w' : world) (l : list msg) : Prop :=
  l = [MBackedUp name]
  /\ is_Some (fs w !! filepath)
  /\ fs w' !! backup_path = fs w !! filepath
  /\ fs w' !! filepath = None
  /\ exists t, fs_fault E t (OpRename filepath backup_path) = None.

Definition warned (E : env) (name filepath backup_path : string)
    (w w' : world) (l : list msg) : Prop :=
  (exists err, l = [MBackupWarning name err])
  /\ fs w' !! filepath = fs w !! filepath
  /\ (fs w' !! backup_path = fs w !! backup_path \/ fs w' !! backup_path = None)
  /\ rotation_blocked E (fs w) filepath backup_path.

(** The paths the rotation of [names] may touch. *)
Definition rotation_paths (fl : flavour) (db_dir : string)
    (names : list string) : list string :=
  backup_dir_of fl db_dir
    :: map (destination_of fl db_dir) names
    ++ map (backup_slot fl db_dir) names.

(** How the rotation of one name ends, between the worlds before and
    after the whole loop. *)
Definition name_outcome (E : env) (db_dir : string) (w w' : world)
    (l : list msg) (aborted : bool) (name : string) : Prop :=
  let fp := destination_of (platform E) db_dir name in
  let bp := backup_slot (platform E) db_dir name in
  (MBackedUp name ∈ l
   /\ is_Some (fs w !! fp)
   /\ fs w' !! bp = fs w !! fp
   /\ fs w' !! fp = None
   /\ exists t, fs_fault E t (OpRename fp bp) = None)
  \/ (fs w' !! fp = fs w !! fp
      /\ (fs w' !! bp = fs w !! bp \/ fs w' !! bp = None)
      /\ (fs w !! fp = None
          \/ aborted = true
          \/ ((exists err, MBackupWarning name err ∈ l)
              /\ rotation_blocked E (fs w) fp bp))).

Definition is_raise {A} (r : outcome A) : bool :=
  match r with Raises _ => true | Returns _ => false end.

(** Whether the run stops at the directory check. *)
Definition stops_at_directory (E : env) (db_dir : string) (w : world) : bool :=
  match fs w !! db_dir, fs_fault E (tick w) (OpMakedirs db_dir) with
  | None, Some _ => true
  | _, _ => false
  end.

(** [main] prints its banner and hands over to the controller. *)
Definition after_banner (f : gmap string node) : world :=
  World f [MRule; MBanner; MRule; MBlank] 0.

(* ===================================================================== *)
(** ** Concrete environments *)
(* ===================================================================== *)


Definition main_url : string := "https://database.clamav.net/main.cvd".

Definition daily_url : string := "https://database.clamav.net/daily.cvd".

(** A server that declares four bytes and sends them in two chunks. *)
Definition honest_response : response :=
  Response (IntHeader 4)
    [ReadBytes [Byte.x41; Byte.x42]; ReadBytes [Byte.x43; Byte.x44]].

Definition honest_server : env :=
  Env Posix (fun _ _ => None) (fun _ => UrlopenOk honest_response).

(** The same server, answering 403 for [daily.cvd]. *)
Definition blocking_server : env :=
  Env Posix (fun _ _ => None)
    (fun url =>
       if String.eqb url daily_url
       then UrlopenRaises (HTTPError 403 "Forbidden")
       else UrlopenOk honest_response).

(** A file system in which [main.cvd] cannot be renamed. *)
Definition locked_main : env :=
  Env Posix
    (fun _ op =>
       match op with
       | OpRename src _ =>
           if String.eqb src "/db/main.cvd" then Some "Permission denied"
           else None
       | _ => None
       end)
    (fun _ => UrlopenOk honest_response).

Definition two_old_files : gmap string node :=
  <["/db/daily.cvd" := File [Byte.x32]]>
    (<["/db/main.cvd" := File [Byte.x31]]> (<["/db" := Dir]> ∅)).

(** The database directory, with nothing in it. *)
Definition empty_db : gmap string node := <["/db" := Dir]> ∅.


(* ===================================================================== *)
(** ** Vocabulary of the further properties *)
(* ===================================================================== *)

(** The destinations whose download was started, in order. *)
Definition attempts (l : list msg) : list string :=
  omap (fun m => match m with MDownloading d => Some d | _ => None end) l.

(** Whether [int] accepts the header. *)
Definition header_ok (h : header_int) : bool :=
  match h with BadHeader _ => false | _ => true end.

(** The lines of the summary. *)
Definition is_verdict (m : msg) : bool :=
  match m with
  | MSummary _ _ | MCompleted | MRestart | MSomeFailed | MPartial => true
  | _ => false
  end.

Definition verdict (l : list msg) : list msg := List.filter is_verdict l.

(** What the controller prints after the rule, for a tally. *)
Definition summary_lines (tally : Z) : list msg :=
  MSummary tally 3
    :: (if (tally =? 3)%Z then [MCompleted; MRestart]
        else MSomeFailed :: (if (0 <? tally)%Z then [MPartial] else [])).




(** A server that declares more than it sends. *)
Definition short_response : response :=
  Response (IntHeader 1000) [ReadBytes [Byte.x41; Byte.x42]].



Definition old_backup_and_file : gmap string node :=
  <["/db/backup/main.cvd" := File [Byte.x30]]>
    (<["/db/backup" := Dir]>
       (<["/db/main.cvd" := File [Byte.x31]]> (<["/db" := Dir]> ∅))).

Definition short_server : env :=
  Env Posix (fun _ _ => None) (fun _ => UrlopenOk short_response).

(** The same body with no content length at all. *)
Definition silent_server : env :=
  Env Posix (fun _ _ => None)
    (fun _ => UrlopenOk (Response NoHeader [ReadBytes [Byte.x41; Byte.x42]])).



(* ===================================================================== *)
(** ** Paths: the names the script builds are distinct *)
(* ===================================================================== *)

Lemma append_cons (c : ascii) (a b : string) :
  String c a +:+ b = String c (a +:+ b).
Proof. reflexivity. Qed.

Lemma append_inj (s a b : string) : s +:+ a = s +:+ b -> a = b.
Proof.
  induction s as [|c s IH]; [done|].
  rewrite !append_cons. intros [=]. auto.
Qed.

Lemma append_assoc (a b c : string) : (a +:+ b) +:+ c = a +:+ (b +:+ c).
Proof.
  induction a as [|x a IH]; [done|].
  rewrite !append_cons. by rewrite IH.
Qed.

Lemma length_append (a b : string) :
  String.length (a +:+ b) = (String.length a + String.length b)%nat.
Proof.
  induction a as [|x a IH]; [done|].
  rewrite append_cons. simpl. by rewrite IH.
Qed.

Lemma last_char_append (a : string) (c : ascii) (b : string) :
  last_char (a +:+ String c b) = last_char (String c b).
Proof.
  induction a as [|x a IH]; [done|].
  rewrite append_cons. cbn [last_char]. rewrite IH.
  destruct a; reflexivity.
Qed.

Lemma bare_drive_length (fl : flavour) (s : string) :
  is_bare_drive fl s = true -> String.length s = 2%nat.
Proof.
  destruct fl; simpl; [done|].
  destruct s as [|? [|? [|? ?]]]; simpl; done.
Qed.

Lemma dir_prefix_length (fl : flavour) (a : string) :
  (String.length a <= String.length (dir_prefix fl a))%nat.
Proof.
  unfold dir_prefix. destruct (last_char a); [|done].
  destruct (_ || _); [done|]. rewrite length_append. lia.
Qed.

(** The backup directory never ends in a separator, so a separator is
    what [os.path.join] adds after it. *)
Lemma dir_prefix_backup (fl : flavour) (db_dir : string) :
  dir_prefix fl (backup_dir_of fl db_dir)
  = dir_prefix fl db_dir +:+ ("backup" +:+ os_sep fl).
Proof.
  unfold backup_dir_of, path_join.
  set (P := dir_prefix fl db_dir).
  unfold dir_prefix at 1.
  rewrite (last_char_append P "b" "ackup"). simpl last_char.
  assert (Hs : is_sep fl "p" = false) by (destruct fl; reflexivity).
  assert (Hd : is_bare_drive fl (P +:+ "backup") = false).
  { destruct (is_bare_drive fl (P +:+ "backup")) eqn:Hb; [|done].
    apply bare_drive_length in Hb. rewrite length_append in Hb.
    simpl in Hb. lia. }
  cbv beta iota. rewrite Hs, Hd. cbn [orb]. by rewrite append_assoc.
Qed.

Lemma backup_slot_eq (fl : flavour) (db_dir name : string) :
  backup_slot fl db_dir name
  = dir_prefix fl db_dir +:+ ("backup" +:+ os_sep fl +:+ name).
Proof.
  unfold backup_slot, path_join at 1. rewrite dir_prefix_backup.
  by rewrite !append_assoc.
Qed.

Lemma suffixes_NoDup (fl : flavour) : NoDup (suffixes fl).
Proof. destruct fl; apply (bool_decide_unpack _); vm_compute; done. Qed.

Lemma below_paths_eq (fl : flavour) (db_dir : string) :
  backup_dir_of fl db_dir
    :: map (destination_of fl db_dir) target_names
    ++ map (backup_slot fl db_dir) target_names
  = map (String.append (dir_prefix fl db_dir)) (suffixes fl).
Proof.
  unfold suffixes, target_names. simpl.
  rewrite !backup_slot_eq. reflexivity.
Qed.

Lemma below_paths_NoDup (fl : flavour) (db_dir : string) :
  NoDup (backup_dir_of fl db_dir
           :: map (destination_of fl db_dir) target_names
           ++ map (backup_slot fl db_dir) target_names).
Proof.
  rewrite below_paths_eq. apply NoDup_fmap_2; [|apply suffixes_NoDup].
  intros a b. apply append_inj.
Qed.

Lemma db_dir_not_below (fl : flavour) (db_dir : string) :
  db_dir ∉ backup_dir_of fl db_dir
           :: map (destination_of fl db_dir) target_names
           ++ map (backup_slot fl db_dir) target_names.
Proof.
  rewrite below_paths_eq. intros Hin.
  apply list_elem_of_fmap in Hin as (s & Heq & Hs).
  assert (String.length s <> 0%nat).
  { revert Hs. unfold suffixes, target_names.
    destruct fl; simpl; rewrite !elem_of_cons, elem_of_nil;
      intros H; repeat destruct H as [->|H]; done. }
  pose proof (dir_prefix_length fl db_dir) as Hl.
  apply (f_equal String.length) in Heq. rewrite length_append in Heq. lia.
Qed.

Lemma run_paths_NoDup (fl : flavour) (db_dir : string) :
  NoDup (run_paths fl db_dir).
Proof.
  unfold run_paths. apply NoDup_cons. split.
  - apply db_dir_not_below.
  - apply below_paths_NoDup.
Qed.

(* ===================================================================== *)
(** ** Reading the output *)
(* ===================================================================== *)

Lemma successes_app (l1 l2 : list msg) :
  successes (l1 ++ l2) = successes l1 ++ successes l2.
Proof. apply omap_app. Qed.

Lemma successes_other_phase (l : list msg) :
  Forall (fun m => phase_of m <> Downloading) l -> successes l = [].
Proof.
  induction 1 as [|m l Hm _ IH]; [done|].
  destruct m; simpl in Hm; try done; exact IH.
Qed.

Lemma elem_of_successes (d : string) (l : list msg) :
  d ∈ successes l <-> MSuccess d ∈ l.
Proof.
  unfold successes. rewrite list_elem_of_omap. split.
  - intros (m & Hm & Heq). destruct m; simplify_eq. done.
  - intros Hm. exists (MSuccess d). done.
Qed.



Lemma successes_progress (ts : Z) (ds : list Z) :
  successes (map (fun d => MProgress d ts) ds) = [].
Proof. induction ds as [|d ds IH]; [done|]. exact IH. Qed.

(* ===================================================================== *)
(** ** The download of one file *)
(* ===================================================================== *)

Lemma progress_lines_nil (ts dl : Z) : progress_lines ts dl [] = [].
Proof. unfold progress_lines. by destruct (0 <? ts)%Z. Qed.

Lemma progress_lines_cons (ts dl : Z) c cs :
  progress_lines ts dl (c :: cs)
  = progress_lines ts dl [c] ++ progress_lines ts (dl + len c) cs.
Proof. unfold progress_lines. by destruct (0 <? ts)%Z. Qed.

(** The streaming loop: some prefix of the chunks reaches the file, one
    progress line per chunk written when a total is known, and the loop
    returns exactly when the stream ends cleanly and no write fails. *)
Lemma read_loop_spec E dest ts stream :
  forall dl w, exists r w' written,
    read_loop E dest ts stream dl w = (r, w')
    /\ written `prefix_of` chunks stream
    /\ (r = Returns tt -> written = chunks stream /\ ends_cleanly stream = true)
    /\ (fault_free E -> ends_cleanly stream = true -> r = Returns tt)
    /\ out w' = out w ++ progress_lines ts dl written
    /\ (forall p, p <> dest -> fs w' !! p = fs w !! p)
    /\ (forall c, fs w !! dest = Some (File c) ->
          fs w' !! dest = Some (File (c ++ concat written))).
Proof.
  assert (Hstop : forall (r : outcome unit) w dl cs,
    (r = Returns tt -> [] = cs /\ true = true) ->
    exists r' w' written,
      (r, w) = (r', w')
      /\ written `prefix_of` cs
      /\ (r' = Returns tt -> written = cs /\ true = true)
      /\ True
      /\ out w' = out w ++ progress_lines ts dl written
      /\ (forall p, p <> dest -> fs w' !! p = fs w !! p)
      /\ (forall c, fs w !! dest = Some (File c) ->
            fs w' !! dest = Some (File (c ++ concat written)))).
  { intros r w dl cs Hr. exists r, w, [].
    rewrite progress_lines_nil, app_nil_r.
    repeat split; auto using prefix_nil; try (by apply Hr).
    intros c Hc. by rewrite app_nil_r. }
  induction stream as [|[chunk|e] rest IH]; intros dl w.
  - destruct (Hstop (Returns tt) w dl []) as (r & w' & wr & H1 & H2 & H3 & _ & H5);
      [done|].
    exists r, w', wr. simpl. repeat split; try tauto. inversion H1; done.
  - destruct chunk as [|b chunk].
    { destruct (Hstop (Returns tt) w dl []) as (r & w' & wr & H1 & H2 & H3 & _ & H5);
        [done|].
      exists r, w', wr. simpl. repeat split; try tauto. inversion H1; done. }
    cbn [read_loop chunks ends_cleanly].
    unfold bind at 1, f_write, os_call.
    destruct (fs_fault E (tick w) (OpWrite dest (b :: chunk))) as [err|] eqn:Hfault.
    { destruct (Hstop (Raises (OSError err)) (advance w) dl
                  ((b :: chunk) :: chunks rest))
        as (r & w' & wr & H1 & H2 & H3 & _ & H5); [done|].
      exists r, w', wr. inversion H1; subst r w'.
      repeat split; try tauto; try done.
      intros Hff. by rewrite Hff in Hfault. }
    set (w1 := advance (set_fs _ w)).
    set (dl1 := (dl + len (b :: chunk))%Z).
    assert (exists w2, (when (0 <? ts)%Z (print (MProgress dl1 ts))) w1
                       = (Returns tt, w2)
              /\ fs w2 = fs w1
              /\ out w2 = out w ++ progress_lines ts dl [b :: chunk])
      as (w2 & Hw2 & Hfs2 & Hout2).
    { unfold progress_lines, when. destruct (0 <? ts)%Z; simpl.
      - eexists. split; [reflexivity|]. done.
      - exists w1. rewrite app_nil_r. done. }
    unfold bind. rewrite Hw2.
    destruct (IH dl1 w2)
      as (r & w' & written & Hrun & Hpre & Hret & Hff & Hout & Hframe & Hfile).
    exists r, w', ((b :: chunk) :: written). rewrite Hrun.
    split; [done|]. split; [by apply prefix_cons|].
    split; [intros Hr; destruct (Hret Hr) as [-> ->]; done|].
    split; [auto|].
    split.
    { rewrite (progress_lines_cons ts dl (b :: chunk) written), Hout, Hout2.
      by rewrite <- app_assoc. }
    split.
    { intros p Hp. rewrite Hframe, Hfs2 by done. subst w1. simpl.
      by rewrite lookup_insert_ne. }
    intros c Hc.
    rewrite (Hfile (c ++ b :: chunk)).
    + simpl. by rewrite <- app_assoc.
    + rewrite Hfs2. subst w1. simpl. rewrite lookup_insert_eq.
      unfold file_content. by rewrite Hc.
  - destruct (Hstop (Raises e) w dl []) as (r & w' & wr & H1 & H2 & H3 & _ & H5);
      [done|].
    exists r, w', wr. inversion H1; subst r w'. simpl.
    repeat split; try tauto; try done.
Qed.

Lemma successes_report e : successes (report e) = [].
Proof. destruct e as [c r| | |]; try done. simpl. by destruct (c =? 403)%Z. Qed.


Lemma report_phase e : Forall (fun m => phase_of m = Downloading) (report e).
Proof.
  destruct e as [c r| | |]; simpl; repeat constructor.
  destruct (c =? 403)%Z; repeat constructor.
Qed.

Lemma progress_lines_phase ts dl cs :
  Forall (fun m => phase_of m = Downloading) (progress_lines ts dl cs).
Proof.
  unfold progress_lines. destruct (0 <? ts)%Z; [|constructor].
  apply Forall_fmap, Forall_true. done.
Qed.

Lemma successes_progress_lines ts dl cs : successes (progress_lines ts dl cs) = [].
Proof.
  unfold progress_lines. destruct (0 <? ts)%Z; [|done]. apply successes_progress.
Qed.

(** Whatever the body raises, a clause catches it, prints its report and
    makes [False] of it. *)
Lemma download_file_unfold E url dest w :
  download_file E url dest w
  = match download_body E url dest w with
    | (Returns b, w') => (Returns b, w')
    | (Raises e, w') =>
        (Returns false, World (fs w') (out w' ++ report e) (tick w'))
    end.
Proof.
  unfold download_file, try_except. fold (download_body E url dest).
  destruct (download_body E url dest w) as [[b|e] w']; [done|].
  destruct e as [c r|r|s|s]; try reflexivity.
  cbn. unfold bind, print, when. cbn.
  destruct (c =? 403)%Z; cbn; by rewrite <- ?app_assoc.
Qed.

Lemma download_file_written E url dest w :
  exists b l w',
    download_file E url dest w = (Returns b, w')
    /\ out w' = out w ++ MDownloading dest :: l
    /\ (forall p, p <> dest -> fs w' !! p = fs w !! p)
    /\ match server E url with
       | UrlopenRaises e =>
           b = false /\ l = report e /\ fs w' = fs w /\ tick w' = tick w
       | UrlopenOk resp =>
           let ts := declared_size (content_length resp) in
           exists written,
             written `prefix_of` chunks (body resp)
             /\ (if b
                 then l = progress_lines ts 0 written ++ [MSuccess dest]
                      /\ written = chunks (body resp)
                      /\ ends_cleanly (body resp) = true
                      /\ fs w' !! dest = Some (File (concat written))
                 else exists e, l = progress_lines ts 0 written ++ report e)
             /\ (fault_free E -> ends_cleanly (body resp) = true ->
                 (forall s, content_length resp <> BadHeader s) ->
                 fs w !! dest <> Some Dir -> b = true)
             /\ (fs w' !! dest = Some (File (concat written))
                 \/ written = [] /\ fs w' = fs w)
       end.
Proof.
  rewrite download_file_unfold. unfold download_body.
  unfold bind at 1, print at 1. unfold bind at 1, urlopen.
  set (w0 := World (fs w) (out w ++ [MDownloading dest]) (tick w)).
  destruct (server E url) as [e|resp].
  { exists false, (report e), (World (fs w0) (out w0 ++ report e) (tick w0)).
    simpl. rewrite <- app_assoc. done. }
  set (ts := declared_size (content_length resp)).
  (* a failure after [written] chunks, in a world that differs from [w] at
     [dest] only *)
  assert (Hfail : forall (e : exn) (w1 : world) written,
    written `prefix_of` chunks (body resp) ->
    out w1 = out w0 ++ progress_lines ts 0 written ->
    (forall p, p <> dest -> fs w1 !! p = fs w !! p) ->
    (fs w1 !! dest = Some (File (concat written))
     \/ written = [] /\ fs w1 = fs w) ->
    (fault_free E -> ends_cleanly (body resp) = true ->
       (forall s, content_length resp <> BadHeader s) ->
       fs w !! dest <> Some Dir -> False) ->
    exists b l w',
      (Returns false, World (fs w1) (out w1 ++ report e) (tick w1))
      = (Returns b, w')
      /\ out w' = out w ++ MDownloading dest :: l
      /\ (forall p, p <> dest -> fs w' !! p = fs w !! p)
      /\ exists written,
           written `prefix_of` chunks (body resp)
           /\ (if b
               then l = progress_lines ts 0 written ++ [MSuccess dest]
                    /\ written = chunks (body resp)
                    /\ ends_cleanly (body resp) = true
                    /\ fs w' !! dest = Some (File (concat written))
               else exists e, l = progress_lines ts 0 written ++ report e)
           /\ (fault_free E -> ends_cleanly (body resp) = true ->
               (forall s, content_length resp <> BadHeader s) ->
               fs w !! dest <> Some Dir -> b = true)
           /\ (fs w' !! dest = Some (File (concat written))
               \/ written = [] /\ fs w' = fs w)).
  { intros e w1 written Hpre Hout Hframe Htie Hno.
    eexists false, (progress_lines ts 0 written ++ report e), _.
    split; [reflexivity|]. cbn [fs out tick].
    split; [rewrite Hout; subst w0; cbn [out]; by rewrite <- !app_assoc|].
    split; [done|]. exists written. split; [done|]. split; [by exists e|].
    split; [|exact Htie]. intros. exfalso. by apply Hno. }
  assert (Hint : int_content_length (content_length resp) w0 = (Returns ts, w0)
                 \/ exists s, content_length resp = BadHeader s
                      /\ int_content_length (content_length resp) w0
                         = (Raises (OtherException
                                      ("invalid literal for int(): " +:+ s)), w0)).
  { subst ts. destruct (content_length resp) as [|n|s]; cbn; eauto. }
  unfold bind at 1.
  destruct Hint as [->|(s & Hbad & ->)];
    [|apply (Hfail _ w0 []); rewrite ?progress_lines_nil, ?app_nil_r;
        auto using prefix_nil; intros _ _ Hb _; by apply (Hb s)].
  all: unfold bind at 1, with_open_wb, bind at 1, open_wb.
  all: change (fs w0) with (fs w).
  all: destruct (fs w !! dest) as [[c|]|] eqn:Hdest.
  all: try (apply (Hfail _ (advance w0) []);
            rewrite ?progress_lines_nil, ?app_nil_r;
            auto using prefix_nil; intros _ _ _ Hd; by apply Hd).
  all: unfold os_call; change (tick w0) with (tick w).
  all: destruct (fs_fault E (tick w) (OpOpen dest)) as [err|] eqn:Hopen;
    [apply (Hfail _ (advance w0) []);
       rewrite ?progress_lines_nil, ?app_nil_r;
       auto using prefix_nil; intros Hff; by rewrite Hff in Hopen|].
  all: set (w1 := advance (set_fs _ w0)).
  all: destruct (read_loop_spec E dest ts (body resp) 0 w1)
    as (r & w2 & written & Hrun & Hpre & Hret & Hff & Hout & Hframe & Hfile).
  all: rewrite Hrun.
  all: assert (Hfs1 : fs w1 !! dest = Some (File []))
    by (subst w1; cbn; apply lookup_insert_eq).
  all: specialize (Hfile _ Hfs1); cbn [app] in Hfile.
  all: assert (Hframe1 : forall p, p <> dest -> fs w2 !! p = fs w !! p)
    by (intros p Hp; rewrite Hframe by done; subst w1; cbn;
        by rewrite lookup_insert_ne).
  all: assert (Hout1 : out w2 = out w0 ++ progress_lines ts 0 written)
    by (rewrite Hout; reflexivity).
  all: unfold f_close, os_call.
  all: destruct (fs_fault E (tick w2) (OpClose dest)) as [err|] eqn:Hclose;
    [apply (Hfail _ (advance w2) written); auto;
       intros Hff'; by rewrite Hff' in Hclose|].
  all: destruct r as [[]|e];
    [|apply (Hfail _ (advance (set_fs (fs w2) w2)) written); auto;
        intros Hff' Hends _ _; by specialize (Hff Hff' Hends)].
  all: destruct (Hret eq_refl) as [-> Hends].
  all: unfold bind, print, ret; cbn.
  all: eexists true, _, _; split; [reflexivity|]; cbn.
  all: split; [rewrite Hout1; subst w0; cbn; by rewrite <- !app_assoc|].
  all: split; [done|].
  all: exists (chunks (body resp)); repeat split; auto.
Qed.

Lemma download_file_cases E url dest w :
  exists b l w',
    download_file E url dest w = (Returns b, w')
    /\ out w' = out w ++ MDownloading dest :: l
    /\ (forall p, p <> dest -> fs w' !! p = fs w !! p)
    /\ match server E url with
       | UrlopenRaises e =>
           b = false /\ l = report e /\ fs w' = fs w /\ tick w' = tick w
       | UrlopenOk resp =>
           let ts := declared_size (content_length resp) in
           exists written,
             written `prefix_of` chunks (body resp)
             /\ (if b
                 then l = progress_lines ts 0 written ++ [MSuccess dest]
                      /\ written = chunks (body resp)
                      /\ ends_cleanly (body resp) = true
                      /\ fs w' !! dest = Some (File (concat written))
                 else exists e, l = progress_lines ts 0 written ++ report e)
             /\ (fault_free E -> ends_cleanly (body resp) = true ->
                 (forall s, content_length resp <> BadHeader s) ->
                 fs w !! dest <> Some Dir -> b = true)
       end.
Proof.
  destruct (download_file_written E url dest w)
    as (b & l & w' & Hrun & Hout & Hframe & Hcases).
  exists b, l, w'. split; [done|]. split; [done|]. split; [done|].
  destruct (server E url) as [e|resp]; [done|].
  destruct Hcases as (written & Hpre & Hb & Htrue & _). by exists written.
Qed.

(** What the callers of [download_file] rely on. *)
Lemma download_file_spec E url dest w :
  exists b l w',
    download_file E url dest w = (Returns b, w')
    /\ out w' = out w ++ MDownloading dest :: l
    /\ successes l = (if b then [dest] else [])
    /\ Forall (fun m => phase_of m = Downloading) l
    /\ (forall p, p <> dest -> fs w' !! p = fs w !! p)
    /\ (b = true -> exists resp,
          server E url = UrlopenOk resp
          /\ ends_cleanly (body resp) = true
          /\ fs w' !! dest = Some (File (concat (chunks (body resp)))))
    /\ (forall e, server E url = UrlopenRaises e ->
          b = false /\ l = report e /\ fs w' = fs w /\ tick w' = tick w).
Proof.
  destruct (download_file_cases E url dest w)
    as (b & l & w' & Hrun & Hout & Hframe & Hcases).
  exists b, l, w'. split; [done|]. split; [done|].
  destruct (server E url) as [e|resp].
  - destruct Hcases as (-> & -> & Hfs & Htick).
    split; [apply successes_report|]. split; [apply report_phase|].
    split; [done|]. split; [done|]. intros e' [= <-]. done.
  - destruct Hcases as (written & Hpre & Hb & _).
    destruct b.
    + destruct Hb as (-> & -> & Hends & Hfile).
      rewrite successes_app, successes_progress_lines.
      split; [done|].
      split; [apply Forall_app; split;
                [apply progress_lines_phase|by repeat constructor]|].
      split; [done|]. split; [|done]. intros _. by exists resp.
    + destruct Hb as (e & ->).
      rewrite successes_app, successes_progress_lines, successes_report.
      split; [done|].
      split; [apply Forall_app; split;
                [apply progress_lines_phase|apply report_phase]|].
      split; [done|]. split; done.
Qed.

Lemma destination_inj fl db_dir : Inj (=) (=) (destination_of fl db_dir).
Proof. intros a b. apply append_inj. Qed.

Lemma download_loop_spec E db_dir items :
  NoDup (map fst items) ->
  forall cnt w, exists l w',
    download_loop E db_dir items cnt w
    = (Returns (cnt + Z.of_nat (length (successes l)))%Z, w')
    /\ out w' = out w ++ l
    /\ successes l `sublist_of`
         destinations (platform E) db_dir
           (List.filter (fun it => negb (refused E it.2)) items)
    /\ Forall (fun m => phase_of m <> BackingUp) l
    /\ (forall p, p ∉ destinations (platform E) db_dir items ->
          fs w' !! p = fs w !! p)
    /\ Forall (item_outcome E db_dir l (fs w')) items.
Proof.
  induction items as [|[name url] rest IH]; intros Hnd cnt w.
  - exists [], w. simpl. rewrite Z.add_0_r, app_nil_r.
    repeat split; auto. 
  - apply NoDup_cons in Hnd as [Hname Hnd]. specialize (IH Hnd).
    cbn [download_loop]. set (d := path_join (platform E) db_dir name).
    destruct (download_file_spec E url d w)
      as (b & l1 & w1 & Hrun & Hout1 & Hsucc & Hph & Hframe1 & Htrue & Hrefused).
    unfold bind at 1. rewrite Hrun. unfold bind at 1, print at 1.
    set (w1' := World (fs w1) (out w1 ++ [MBlank]) (tick w1)).
    destruct (IH (if b then (cnt + 1)%Z else cnt) w1')
      as (l2 & w' & Hloop & Hout2 & Hsub & Hph2 & Hframe2 & Hitems).
    exists (MDownloading d :: l1 ++ MBlank :: l2), w'.
    assert (Hs : successes (MDownloading d :: l1 ++ MBlank :: l2)
                 = (if b then [d] else []) ++ successes l2).
    { change (MDownloading d :: l1 ++ MBlank :: l2)
        with ([MDownloading d] ++ l1 ++ [MBlank] ++ l2).
      rewrite !successes_app, Hsucc. reflexivity. }
    assert (Hd : d ∉ destinations (platform E) db_dir rest).
    { intros Hin. apply list_elem_of_fmap in Hin as ([n u] & Heq & Hin).
      apply destination_inj in Heq. simpl in Heq. subst n.
      apply Hname. apply list_elem_of_fmap. by exists (name, u). }
    assert (Hd2 : d ∉ successes l2).
    { intros Hin. eapply elem_of_sublist in Hin; [|exact Hsub].
      apply Hd. apply list_elem_of_fmap in Hin as (it & Heq & Hin).
      apply list_elem_of_fmap. exists it. split; [done|].
      apply list_elem_of_In, filter_In in Hin as [Hin _].
      by apply list_elem_of_In. }
    split.
    { rewrite Hloop, Hs. f_equal. f_equal. destruct b; simpl; lia. }
    split.
    { rewrite Hout2. subst w1'. cbn [out]. rewrite Hout1.
      by rewrite <- !app_assoc. }
    split.
    { rewrite Hs. cbn [List.filter snd]. unfold refused at 1.
      destruct (server E url) as [e|resp] eqn:Hsrv; cbn [negb].
      - destruct (Hrefused e eq_refl) as (-> & _). exact Hsub.
      - unfold destinations. cbn [map fst]. fold d.
        destruct b; cbn [app]; [by apply sublist_skip|by apply sublist_cons]. }
    split.
    { constructor; [done|]. apply Forall_app. split.
      - eapply Forall_impl; [exact Hph|]. intros m ->. done.
      - constructor; [done|exact Hph2]. }
    split.
    { intros p Hp. unfold destinations in Hp. cbn [map fst] in Hp. fold d in Hp.
      apply not_elem_of_cons in Hp as [Hpd Hp].
      rewrite Hframe2 by exact Hp. subst w1'. cbn [fs]. by apply Hframe1. }
    constructor.
    + unfold item_outcome. cbn [fst snd]. fold d. split; [elem|]. split.
      * intros r Hsrv. destruct (Hrefused _ Hsrv) as (_ & -> & _).
        cbn. split; elem.
      * intros Hin. apply elem_of_successes in Hin. rewrite Hs in Hin.
        apply elem_of_app in Hin as [Hin|Hin]; [|done].
        destruct b; [|by apply elem_of_nil in Hin].
        destruct (Htrue eq_refl) as (resp & Hsrv & Hends & Hfile).
        exists resp. split; [done|]. split; [done|].
        rewrite Hframe2 by exact Hd. exact Hfile.
    + apply Forall_forall. intros it Hit.
      rewrite Forall_forall in Hitems.
      destruct (Hitems it Hit) as (Hdl & H403 & Hok). unfold item_outcome.
      split; [elem|].
      split; [intros r Hsrv; destruct (H403 r Hsrv); split; elem|].
      intros Hin. apply Hok. apply elem_of_successes.
      apply elem_of_successes in Hin. rewrite Hs in Hin.
      apply elem_of_app in Hin as [Hin|Hin]; [|done].
      destruct b; [|by apply elem_of_nil in Hin].
      apply list_elem_of_singleton in Hin.
      exfalso. apply Hd. rewrite <- Hin.
      apply list_elem_of_fmap. by exists it.
Qed.

(* ===================================================================== *)
(** ** The backup step *)
(* ===================================================================== *)

Lemma rotate_spec E name fp bp w :
  fp <> bp ->
  exists w' l,
    rotate E name fp bp w = (Returns tt, w')
    /\ out w' = out w ++ l
    /\ (forall p, p <> fp -> p <> bp -> fs w' !! p = fs w !! p)
    /\ (rotated E name fp bp w w' l \/ warned E name fp bp w w' l).
Proof.
  intros Hne.
  (* the warning branch, from any world that agrees with [w] outside [bp] *)
  assert (Hwarn : forall err (w1 : world),
    out w1 = out w ->
    (forall p, p <> bp -> fs w1 !! p = fs w !! p) ->
    (fs w1 !! bp = fs w !! bp \/ fs w1 !! bp = None) ->
    rotation_blocked E (fs w) fp bp ->
    exists w' l,
      print (MBackupWarning name err) w1 = (Returns tt, w')
      /\ out w' = out w ++ l
      /\ (forall p, p <> fp -> p <> bp -> fs w' !! p = fs w !! p)
      /\ (rotated E name fp bp w w' l \/ warned E name fp bp w w' l)).
  { intros err w1 Hout Hfs Hbp Hcause. eexists _, [MBackupWarning name err].
    split; [reflexivity|]. cbn. split; [by rewrite Hout|].
    split; [auto|]. right. split; [by exists err|]. auto. }
  (* the rename, once the slot is empty *)
  assert (Hrename : forall (w1 : world),
    out w1 = out w ->
    (forall p, p <> bp -> fs w1 !! p = fs w !! p) ->
    fs w1 !! bp = None ->
    exists w' l,
      try_except
        (os_rename E fp bp ;;; print (MBackedUp name))
        [ (is_OSError, fun e => print (MBackupWarning name (exn_str e))) ] w1
      = (Returns tt, w')
      /\ out w' = out w ++ l
      /\ (forall p, p <> fp -> p <> bp -> fs w' !! p = fs w !! p)
      /\ (rotated E name fp bp w w' l \/ warned E name fp bp w w' l)).
  { intros w1 Hout Hfs Hbp.
    unfold try_except, bind, os_rename. rewrite (Hfs fp Hne), Hbp.
    destruct (fs w !! fp) as [n|] eqn:Hfp.
    - cbn [rename_allowed]. unfold os_call.
      destruct (fs_fault E (tick w1) (OpRename fp bp)) as [err|] eqn:Hfault.
      + cbn [dispatch is_OSError exn_str].
        apply (Hwarn err (advance w1)); cbn; auto.
        right; right; right. eauto.
      + eexists _, [MBackedUp name]. split; [reflexivity|]. cbn.
        split; [by rewrite Hout|]. split.
        { intros p Hp1 Hp2.
          rewrite lookup_insert_ne, lookup_delete_ne by done. auto. }
        left. split; [done|]. split; [by rewrite Hfp|]. cbn.
        rewrite lookup_insert_eq, Hfp.
        rewrite lookup_insert_ne, lookup_delete_eq by done. eauto.
    - cbn [dispatch is_OSError exn_str].
      apply (Hwarn _ (advance w1)); cbn; auto.
      left. done. }
  unfold rotate, try_except at 1.
  unfold bind at 1, path_exists. unfold bind at 1.
  destruct (fs w !! bp) as [[c|]|] eqn:Hbp.
  - rewrite bool_decide_eq_true_2 by eauto. cbn [when].
    unfold os_remove. rewrite Hbp. unfold os_call.
    destruct (fs_fault E (tick w) (OpRemove bp)) as [err|] eqn:Hfault.
    + cbn [dispatch is_OSError exn_str].
      apply (Hwarn err (advance w)); cbn; auto.
      right; right; left. eauto.
    + set (w1 := advance (set_fs (delete bp (fs w)) w)).
      apply (Hrename w1); subst w1; cbn;
        [done | intros p Hp; by apply lookup_delete_ne | apply lookup_delete_eq].
  - rewrite bool_decide_eq_true_2 by eauto. cbn [when].
    unfold os_remove. rewrite Hbp.
    cbn [dispatch is_OSError exn_str].
    apply (Hwarn _ (advance w)); cbn; auto.
    right; left. done.
  - rewrite bool_decide_eq_false_2 by (intros [? ?]; done). cbn [when ret].
    apply (Hrename w); auto.
Qed.

Lemma rotation_paths_cons fl db_dir name rest :
  NoDup (rotation_paths fl db_dir (name :: rest)) ->
  NoDup (rotation_paths fl db_dir rest)
  /\ (destination_of fl db_dir name ∉ rotation_paths fl db_dir rest)
  /\ (backup_slot fl db_dir name ∉ rotation_paths fl db_dir rest)
  /\ destination_of fl db_dir name <> backup_slot fl db_dir name.
Proof.
  unfold rotation_paths. cbn [map].
  set (bd := backup_dir_of fl db_dir).
  set (fp := destination_of fl db_dir name).
  set (bp := backup_slot fl db_dir name).
  set (fps := map (destination_of fl db_dir) rest).
  set (bps := map (backup_slot fl db_dir) rest).
  rewrite !NoDup_cons, !NoDup_app, !NoDup_cons.
  rewrite !not_elem_of_cons, !not_elem_of_app, !not_elem_of_cons.
  intros (((Hbd1 & Hbd2) & Hbd3 & Hbd4) & (Hfp1 & Hfps) & Hx & Hbp & Hbps).
  assert (Hfp2 : fp <> bp /\ fp ∉ bps).
  { apply not_elem_of_cons, Hx. left. }
  assert (Hbp2 : bp ∉ fps).
  { intros Hin. apply (Hx bp); [by right|left]. }
  assert (Hxs : forall x, x ∈ fps -> x ∉ bps).
  { intros x Hin. specialize (Hx x (list_elem_of_further _ _ _ Hin)).
    apply not_elem_of_cons in Hx. tauto. }
  destruct Hfp2. repeat split; auto.
Qed.

(** An outcome established from a later world and a later part of the
    output holds from the start, when the step in between left the two
    paths of the name alone. *)
Lemma name_outcome_earlier E db_dir (w w1 w' : world) l0 l a name :
  fs w1 !! destination_of (platform E) db_dir name
    = fs w !! destination_of (platform E) db_dir name ->
  fs w1 !! backup_slot (platform E) db_dir name
    = fs w !! backup_slot (platform E) db_dir name ->
  name_outcome E db_dir w1 w' l a name ->
  name_outcome E db_dir w w' (l0 ++ l) a name.
Proof.
  intros Hfp Hbp. unfold name_outcome, rotation_blocked.
  rewrite Hfp, Hbp.
  intros [(H1 & H2)|(H1 & H2 & [H3|[H3|((err & H3) & H4)]])].
  - left. split; [elem|done].
  - right. auto.
  - right. auto.
  - right. split; [done|]. split; [done|]. right; right.
    split; [exists err; elem|done].
Qed.

(** The outcome of [rotate] read as the outcome of the name. *)
Lemma rotate_outcome E db_dir name (w wa w2 w' : world) l0 lr l2 a :
  let fp := destination_of (platform E) db_dir name in
  let bp := backup_slot (platform E) db_dir name in
  fs wa !! fp = fs w !! fp -> fs wa !! bp = fs w !! bp ->
  rotated E name fp bp wa w2 lr \/ warned E name fp bp wa w2 lr ->
  fs w' !! fp = fs w2 !! fp -> fs w' !! bp = fs w2 !! bp ->
  name_outcome E db_dir w w' (l0 ++ lr ++ l2) a name.
Proof.
  intros fp bp Hfp Hbp Hcase Hfp' Hbp'.
  unfold name_outcome. fold fp bp. rewrite Hfp', Hbp'.
  destruct Hcase as [(-> & H1 & H2 & H3 & H4)|((err & ->) & H1 & H2 & H3)].
  - left. rewrite <- Hfp. split; [elem|done].
  - right. rewrite <- Hfp, <- Hbp. split; [done|]. split; [done|].
    right; right. split; [exists err; elem|].
    unfold rotation_blocked in *. by rewrite <- Hfp, <- Hbp.
Qed.

Lemma backup_loop_spec E db_dir names :
  NoDup (rotation_paths (platform E) db_dir names) ->
  forall has_files w, exists r l w',
    backup_loop E db_dir (backup_dir_of (platform E) db_dir) names has_files w
    = (r, w')
    /\ out w' = out w ++ l
    /\ Forall (fun m => phase_of m = BackingUp) l
    /\ (forall p, p ∉ rotation_paths (platform E) db_dir names ->
          fs w' !! p = fs w !! p)
    /\ (forall e, r = Raises e -> exists t err,
          fs_fault E t (OpMakedirs (backup_dir_of (platform E) db_dir))
          = Some err)
    /\ Forall (name_outcome E db_dir w w' l (is_raise r)) names.
Proof.
  set (fl := platform E). set (bd := backup_dir_of fl db_dir).
  induction names as [|name rest IH]; intros Hnd has_files w.
  - exists (Returns has_files), [], w. cbn. rewrite app_nil_r.
    repeat split; auto. done.
  - apply rotation_paths_cons in Hnd as (Hnd & Hfp & Hbp & Hne).
    specialize (IH Hnd).
    set (fp := destination_of fl db_dir name) in *.
    set (bp := backup_slot fl db_dir name) in *.
    assert (Hfpbd : fp <> bd) by (intros ->; apply Hfp; left).
    assert (Hbpbd : bp <> bd) by (intros ->; apply Hbp; left).
    (* the rest of the loop, after a step that left the other names alone *)
    assert (Hrest : forall hf (w1 : world) l1,
      out w1 = out w ++ l1 ->
      Forall (fun m => phase_of m = BackingUp) l1 ->
      (forall p, p <> fp -> p <> bp -> p <> bd -> fs w1 !! p = fs w !! p) ->
      forall (Hname : forall (w' : world) l2 a,
                fs w' !! fp = fs w1 !! fp -> fs w' !! bp = fs w1 !! bp ->
                name_outcome E db_dir w w' (l1 ++ l2) a name),
      exists r l w',
        backup_loop E db_dir bd rest hf w1 = (r, w')
        /\ out w' = out w ++ l
        /\ Forall (fun m => phase_of m = BackingUp) l
        /\ (forall p, p ∉ rotation_paths fl db_dir (name :: rest) ->
              fs w' !! p = fs w !! p)
        /\ (forall e, r = Raises e -> exists t err,
              fs_fault E t (OpMakedirs bd) = Some err)
        /\ Forall (name_outcome E db_dir w w' l (is_raise r)) (name :: rest)).
    { intros hf w1 l1 Hout1 Hph1 Hframe1 Hname.
      destruct (IH hf w1) as (r & l2 & w' & Hrun & Hout & Hph & Hframe & Hraise & Hall).
      exists r, (l1 ++ l2), w'. split; [done|].
      split; [by rewrite Hout, Hout1, app_assoc|].
      split; [by apply Forall_app|].
      split.
      { intros p Hp. unfold rotation_paths in Hp. cbn [map] in Hp.
        fold fp bp bd in Hp.
        rewrite not_elem_of_cons, not_elem_of_app, !not_elem_of_cons in Hp.
        destruct Hp as (Hp1 & (Hp2 & Hp3) & Hp4 & Hp5).
        rewrite Hframe, Hframe1; auto.
        unfold rotation_paths. fold bd.
        rewrite not_elem_of_cons, not_elem_of_app. auto. }
      split; [done|].
      constructor; [apply Hname; apply Hframe; done|].
      apply Forall_forall. intros n Hn. rewrite Forall_forall in Hall.
      assert (Hnf : destination_of fl db_dir n
                    ∈ map (destination_of fl db_dir) rest
                      ++ map (backup_slot fl db_dir) rest).
      { apply elem_of_app. left. apply list_elem_of_fmap. by exists n. }
      assert (Hnb : backup_slot fl db_dir n
                    ∈ map (destination_of fl db_dir) rest
                      ++ map (backup_slot fl db_dir) rest).
      { apply elem_of_app. right. apply list_elem_of_fmap. by exists n. }
      assert (Hsep : forall p,
                p ∈ map (destination_of fl db_dir) rest
                    ++ map (backup_slot fl db_dir) rest ->
                p <> fp /\ p <> bp /\ p <> bd).
      { intros p Hp. unfold rotation_paths in Hnd, Hfp, Hbp. fold bd in Hnd, Hfp, Hbp.
        apply NoDup_cons in Hnd as [Hbdn _].
        apply not_elem_of_cons in Hfp as [_ Hfp].
        apply not_elem_of_cons in Hbp as [_ Hbp].
        repeat split; intros ->; done. }
      destruct (Hsep _ Hnf) as (? & ? & ?). destruct (Hsep _ Hnb) as (? & ? & ?).
      apply (name_outcome_earlier E db_dir w w1); [..|by apply Hall].
      - by apply Hframe1.
      - by apply Hframe1. }
    cbn [backup_loop]. fold fl.
    change (path_join fl db_dir name) with fp.
    change (path_join fl bd name) with bp.
    unfold bind at 1, path_exists.
    destruct (fs w !! fp) as [n|] eqn:Hfpw.
    2:{ rewrite bool_decide_eq_false_2 by (intros [? ?]; done).
        apply (Hrest has_files w []); auto using app_nil_r.
        intros w' l2 a Hf Hb. right.
        split; [exact Hf|]. split; [left; exact Hb|left; exact Hfpw]. }
    rewrite bool_decide_eq_true_2 by eauto.
    unfold bind at 1. fold bd.
    destruct (fs w !! bd) as [nd|] eqn:Hbd.
    { rewrite bool_decide_eq_true_2 by eauto. cbn [negb when].
      unfold bind at 1, ret.
      destruct (rotate_spec E name fp bp w Hne)
        as (w2 & lr & Hrot & Hout2 & Hframe2 & Hcase).
      unfold bind at 1. rewrite Hrot.
      apply (Hrest true w2 lr); auto.
      - destruct Hcase as [(-> & _)|((err & ->) & _)]; by repeat constructor.
      - intros w' l2 a Hf Hb.
        apply (rotate_outcome E db_dir name w w w2 w' [] lr l2 a); auto. }
    rewrite bool_decide_eq_false_2 by (intros [? ?]; done). cbn [negb when].
    unfold bind at 1, bind at 1, os_makedirs. rewrite Hbd. unfold os_call.
    destruct (fs_fault E (tick w) (OpMakedirs bd)) as [err|] eqn:Hfault.
    { exists (Raises (OSError err)), [], (advance w). cbn.
      rewrite app_nil_r. repeat split; auto; [eauto|].
      apply Forall_forall. intros n' _. right. auto. }
    unfold print at 1.
    set (w1 := World _ _ _).
    destruct (rotate_spec E name fp bp w1 Hne)
      as (w2 & lr & Hrot & Hout2 & Hframe2 & Hcase).
    unfold bind at 1. rewrite Hrot.
    assert (Hw1 : forall p, p <> bd -> fs w1 !! p = fs w !! p).
    { intros p Hp. subst w1. cbn. by rewrite lookup_insert_ne. }
    apply (Hrest true w2 (MCreatedBackupDir bd :: lr)).
    + rewrite Hout2. subst w1. cbn. by rewrite <- app_assoc.
    + constructor; [done|].
      destruct Hcase as [(-> & _)|((err & ->) & _)]; by repeat constructor.
    + intros p H1 H2 H3. rewrite Hframe2 by done. by apply Hw1.
    + intros w' l2 a Hf Hb.
      apply (rotate_outcome E db_dir name w w1 w2 w' [MCreatedBackupDir bd] lr l2 a);
        auto.
Qed.

Lemma name_outcome_later E db_dir (w w' w'' : world) l l3 a name :
  fs w'' = fs w' ->
  name_outcome E db_dir w w' l a name ->
  name_outcome E db_dir w w'' (l ++ l3) a name.
Proof.
  unfold name_outcome. intros ->.
  intros [(H1 & H2)|(H1 & H2 & [H3|[H3|((err & H3) & H4)]])].
  - left. split; [elem|done].
  - right. auto.
  - right. auto.
  - right. split; [done|]. split; [done|]. right; right.
    split; [exists err; elem|done].
Qed.

(** The backup step as a whole: it always returns [True], prints only
    backup lines, stays within the rotation paths, and ends the rotation
    of every name in one of the two ways; it is cut short only by a
    failure to create the backup directory. *)
Lemma backup_existing_files_spec E db_dir w :
  exists l w' aborted,
    backup_existing_files E db_dir w = (Returns true, w')
    /\ out w' = out w ++ l
    /\ Forall (fun m => phase_of m = BackingUp) l
    /\ (forall p, p ∉ rotation_paths (platform E) db_dir target_names ->
          fs w' !! p = fs w !! p)
    /\ (aborted = true -> exists t err,
          fs_fault E t (OpMakedirs (backup_dir_of (platform E) db_dir))
          = Some err)
    /\ Forall (name_outcome E db_dir w w' l aborted) target_names.
Proof.
  destruct (backup_loop_spec E db_dir target_names
              (below_paths_NoDup (platform E) db_dir) false w)
    as (r & l & w1 & Hrun & Hout & Hph & Hframe & Hraise & Hall).
  unfold backup_existing_files, try_except, bind.
  change (path_join (platform E) db_dir "backup")
    with (backup_dir_of (platform E) db_dir).
  change (map fst DATABASE_URLS) with target_names.
  rewrite Hrun. destruct r as [has_files|e].
  - destruct has_files; cbn.
    + exists l, w1, false. rewrite Forall_forall in Hall.
      repeat split; auto; [done|]. by apply Forall_forall.
    + eexists (l ++ [MNoFilesToBackup]), _, false.
      split; [reflexivity|]. cbn.
      rewrite Hout, <- app_assoc. repeat split; auto; [|done|].
      * apply Forall_app. split; [done|]. by repeat constructor.
      * eapply Forall_impl; [exact Hall|]. intros n. by apply name_outcome_later.
  - cbn. eexists (l ++ [MBackupFailed (exn_str e)]), _, true.
    split; [reflexivity|]. cbn.
    rewrite Hout, <- app_assoc. repeat split; auto.
    + apply Forall_app. split; [done|]. by repeat constructor.
    + intros _. by apply (Hraise e).
    + eapply Forall_impl; [exact Hall|]. intros n. by apply name_outcome_later.
Qed.

(* ===================================================================== *)
(** ** The controller *)
(* ===================================================================== *)

(** The three ways the directory check ends. *)
Lemma prepare_directory_cases E db_dir w :
  match fs w !! db_dir, fs_fault E (tick w) (OpMakedirs db_dir) with
  | Some _, _ => prepare_directory E db_dir w = (Returns true, w)
  | None, Some err =>
      prepare_directory E db_dir w
      = (Returns false,
         World (fs w)
           (out w ++ [MDirMissing db_dir; MCreating; MCouldNotCreate err])
           (S (tick w)))
  | None, None =>
      prepare_directory E db_dir w
      = (Returns true,
         World (<[db_dir := Dir]> (fs w))
           (out w ++ [MDirMissing db_dir; MCreating; MCreatedDir db_dir])
           (S (tick w)))
  end.
Proof.
  destruct (fs w !! db_dir) as [n|] eqn:Hdb.
  - unfold prepare_directory, bind, path_exists.
    rewrite Hdb. by rewrite bool_decide_eq_true_2 by eauto.
  - assert (Hrun : prepare_directory E db_dir w
                   = try_except
                       (os_makedirs E db_dir ;;;
                        print (MCreatedDir db_dir) ;;;
                        ret true)
                       [ (is_Exception, fun e =>
                            print (MCouldNotCreate (exn_str e)) ;;;
                            ret false) ]
                       (World (fs w) (out w ++ [MDirMissing db_dir; MCreating])
                          (tick w))).
    { unfold prepare_directory, bind at 1, path_exists. rewrite Hdb.
      rewrite bool_decide_eq_false_2 by (intros [? ?]; done).
      unfold bind at 1, print at 1. unfold bind at 1, print at 1. cbn.
      by rewrite <- app_assoc. }
    rewrite Hrun. unfold try_except, bind, print, os_makedirs, os_call. cbn.
    rewrite Hdb.
    destruct (fs_fault E (tick w) (OpMakedirs db_dir)); cbn;
      by rewrite <- !app_assoc.
Qed.

Lemma DATABASE_URLS_names_NoDup : NoDup (map fst DATABASE_URLS).
Proof. apply (bool_decide_unpack _). vm_compute. done. Qed.

Lemma destinations_in_run_paths fl db_dir :
  destinations fl db_dir DATABASE_URLS ⊆ run_paths fl db_dir.
Proof.
  intros p Hp. unfold run_paths. do 2 right. apply elem_of_app. left.
  exact Hp.
Qed.

(** One run of the controller. *)
Lemma update_database_spec E db_dir backup w :
  exists b l w',
    update_database E db_dir backup w = (Returns b, w')
    /\ out w' = out w ++ l
    /\ (forall p, p ∉ run_paths (platform E) db_dir -> fs w' !! p = fs w !! p)
    /\ (backup = false ->
          (forall p, p ∉ db_dir :: destinations (platform E) db_dir DATABASE_URLS ->
             fs w' !! p = fs w !! p)
          /\ Forall (fun m => phase_of m <> BackingUp) l)
    /\ if stops_at_directory E db_dir w
       then b = false /\ fs w' = fs w
            /\ exists err,
                 fs_fault E (tick w) (OpMakedirs db_dir) = Some err
                 /\ l = [MDirMissing db_dir; MCreating; MCouldNotCreate err]
       else b = bool_decide (length (successes l) = 3%nat)
            /\ MSummary (Z.of_nat (length (successes l))) 3 ∈ l
            /\ successes l `sublist_of`
                 destinations (platform E) db_dir
                   (List.filter (fun it => negb (refused E it.2)) DATABASE_URLS)
            /\ Forall (item_outcome E db_dir l (fs w')) DATABASE_URLS.
Proof.
  set (fl := platform E).
  (* the run from the point where the directory is there *)
  assert (Hgo : forall (w1 : world) l1,
    out w1 = out w ++ l1 ->
    Forall (fun m => phase_of m = Controlling) l1 ->
    (forall p, p <> db_dir -> fs w1 !! p = fs w !! p) ->
    exists b l w',
      (when backup
         (print MBackupHeader ;;;
          _ <- backup_existing_files E db_dir ;;
          ret tt) ;;;
       print MDownloadHeader ;;;
       print MSource ;;;
       print (MDestination db_dir) ;;;
       let total_count := Z.of_nat (length DATABASE_URLS) in
       success_count <- download_loop E db_dir DATABASE_URLS 0 ;;
       print MRule ;;;
       print (MSummary success_count total_count) ;;;
       if (success_count =? total_count)%Z then
         print MCompleted ;;;
         print MRestart ;;;
         ret true
       else
         print MSomeFailed ;;;
         when (0 <? success_count)%Z (print MPartial) ;;;
         ret false) w1 = (Returns b, w')
      /\ out w' = out w ++ l
      /\ (forall p, p ∉ run_paths fl db_dir -> fs w' !! p = fs w !! p)
      /\ (backup = false ->
            (forall p, p ∉ db_dir :: destinations fl db_dir DATABASE_URLS ->
               fs w' !! p = fs w !! p)
            /\ Forall (fun m => phase_of m <> BackingUp) l)
      /\ b = bool_decide (length (successes l) = 3%nat)
      /\ MSummary (Z.of_nat (length (successes l))) 3 ∈ l
      /\ successes l `sublist_of`
           destinations fl db_dir
             (List.filter (fun it => negb (refused E it.2)) DATABASE_URLS)
      /\ Forall (item_outcome E db_dir l (fs w')) DATABASE_URLS).
  { intros w1 l1 Hout1 Hph1 Hframe1.
    assert (Hbk : exists (w2 : world) lb,
      (when backup
         (print MBackupHeader ;;;
          _ <- backup_existing_files E db_dir ;;
          ret tt)) w1 = (Returns tt, w2)
      /\ out w2 = out w1 ++ lb
      /\ Forall (fun m => phase_of m = BackingUp) lb
      /\ (forall p, p ∉ rotation_paths fl db_dir target_names ->
            fs w2 !! p = fs w1 !! p)
      /\ (backup = false -> w2 = w1 /\ lb = [])).
    { destruct backup; cbn [when].
      - unfold bind at 1, print at 1.
        set (w1h := World _ _ _).
        destruct (backup_existing_files_spec E db_dir w1h)
          as (lb & w2 & ab & Hrun & Hout & Hph & Hframe & _).
        unfold bind, ret. rewrite Hrun.
        exists w2, (MBackupHeader :: lb). split; [done|].
        split; [rewrite Hout; subst w1h; cbn; by rewrite <- app_assoc|].
        split; [by constructor|]. split; [exact Hframe|done].
      - exists w1, []. rewrite app_nil_r. repeat split; auto. }
    destruct Hbk as (w2 & lb & Hrun2 & Hout2 & Hph2 & Hframe2 & Hnobk).
    unfold bind at 1. rewrite Hrun2.
    unfold bind at 1, print at 1. unfold bind at 1, print at 1.
    unfold bind at 1, print at 1. cbn [fs out tick].
    set (w3 := World _ _ _).
    destruct (download_loop_spec E db_dir DATABASE_URLS
                DATABASE_URLS_names_NoDup 0 w3)
      as (ld & w4 & Hloop & Hout4 & Hsub & Hph4 & Hframe4 & Hitems).
    cbv zeta. unfold bind at 1. rewrite Hloop. rewrite Z.add_0_l.
    set (n := length (successes ld)).
    set (head := l1 ++ lb ++ [MDownloadHeader; MSource; MDestination db_dir]).
    assert (Hsh : successes head = []).
    { subst head. rewrite !successes_app.
      rewrite (successes_other_phase l1), (successes_other_phase lb); [done|..].
      - eapply Forall_impl; [exact Hph2|]. by intros m ->.
      - eapply Forall_impl; [exact Hph1|]. by intros m ->. }
    (* the tail of the output, whichever summary is printed *)
    assert (Hend : exists (le : list msg) (w' : world),
      (print MRule ;;;
       print (MSummary (Z.of_nat n) (Z.of_nat (length DATABASE_URLS))) ;;;
       if (Z.of_nat n =? Z.of_nat (length DATABASE_URLS))%Z then
         print MCompleted ;;;
         print MRestart ;;;
         ret true
       else
         print MSomeFailed ;;;
         when (0 <? Z.of_nat n)%Z (print MPartial) ;;;
         ret false) w4
      = (Returns (bool_decide (n = 3%nat)), w')
      /\ fs w' = fs w4
      /\ out w' = out w4 ++ MRule :: MSummary (Z.of_nat n) 3 :: le
      /\ Forall (fun m => phase_of m = Controlling) le).
    { unfold bind, print, ret. cbn [length DATABASE_URLS fs out tick].
      destruct (Z.eqb_spec (Z.of_nat n) (Z.of_nat 3)) as [Heq|Hneq].
      - apply Nat2Z.inj in Heq. rewrite bool_decide_eq_true_2 by done.
        exists [MCompleted; MRestart]. eexists. cbn.
        split; [reflexivity|]. split; [done|]. cbn.
        split; [by rewrite <- !app_assoc|]. by repeat constructor.
      - rewrite bool_decide_eq_false_2 by (intros ->; done).
        destruct (0 <? Z.of_nat n)%Z; cbn.
        + exists [MSomeFailed; MPartial]. eexists.
          split; [reflexivity|]. split; [done|]. cbn.
          split; [by rewrite <- !app_assoc|]. by repeat constructor.
        + exists [MSomeFailed]. eexists.
          split; [reflexivity|]. split; [done|]. cbn.
          split; [by rewrite <- !app_assoc|]. by repeat constructor. }
    destruct Hend as (le & w' & Hrun' & Hfs' & Hout' & Hphe).
    rewrite Hrun'.
    exists (bool_decide (n = 3%nat)),
      (head ++ ld ++ MRule :: MSummary (Z.of_nat n) 3 :: le), w'.
    assert (Hs : successes (head ++ ld ++ MRule :: MSummary (Z.of_nat n) 3 :: le)
                 = successes ld).
    { rewrite !successes_app, Hsh.
      change (MRule :: MSummary (Z.of_nat n) 3 :: le)
        with ([MRule; MSummary (Z.of_nat n) 3] ++ le).
      rewrite successes_app, (successes_other_phase le), !app_nil_r; [done|].
      eapply Forall_impl; [exact Hphe|]. by intros m ->. }
    rewrite Hs. fold n.
    split; [done|].
    split.
    { rewrite Hout', Hout4. subst w3 head. cbn [out]. rewrite Hout2, Hout1.
      by rewrite <- !app_assoc. }
    assert (Hfw3 : fs w3 = fs w2) by done.
    split.
    { intros p Hp. rewrite Hfs', Hframe4, Hfw3, Hframe2, Hframe1; auto.
      - intros ->. apply Hp. left.
      - intros Hin. apply Hp. by right.
      - intros Hin. by apply Hp, destinations_in_run_paths. }
    split.
    { intros Hb. destruct (Hnobk Hb) as [-> ->]. split.
      - intros p Hp. apply not_elem_of_cons in Hp as [Hp1 Hp2].
        rewrite Hfs', Hframe4, Hfw3, Hframe1; auto.
      - subst head. rewrite !Forall_app. repeat split.
        + eapply Forall_impl; [exact Hph1|]. by intros m ->.
        + constructor.
        + by repeat constructor.
        + exact Hph4.
        + repeat (constructor; [done|]).
          eapply Forall_impl; [exact Hphe|]. by intros m ->. }
    split; [done|].
    split; [elem|].
    split; [done|].
    eapply Forall_impl; [exact Hitems|].
    intros it (H1 & H2 & H3). unfold item_outcome. rewrite Hfs'.
    split; [elem|].
    split; [intros r Hr; destruct (H2 r Hr); split; elem|].
    intros Hin. apply H3. apply elem_of_successes.
    apply elem_of_successes in Hin. by rewrite Hs in Hin. }
  pose proof (prepare_directory_cases E db_dir w) as Hprep.
  unfold update_database, bind at 1. unfold stops_at_directory.
  destruct (fs w !! db_dir) as [nd|] eqn:Hdb;
    [|destruct (fs_fault E (tick w) (OpMakedirs db_dir)) as [err|] eqn:Hfault];
    rewrite Hprep; cbn [negb].
  - destruct (Hgo w []) as (b & l & w' & Hrun & Hrest); auto using app_nil_r.
    exists b, l, w'. split; [exact Hrun|]. tauto.
  - eexists false, _, _. split; [reflexivity|]. cbn.
    split; [done|]. split; [done|]. split.
    + intros _. split; [done|]. by repeat constructor.
    + split; [done|]. split; [done|]. by exists err.
  - set (w1 := World _ _ _).
    destruct (Hgo w1 [MDirMissing db_dir; MCreating; MCreatedDir db_dir])
      as (b & l & w' & Hrun & Hrest);
      [done | by repeat constructor
       | intros p Hp; subst w1; cbn; by rewrite lookup_insert_ne |].
    exists b, l, w'. split; [exact Hrun|]. tauto.
Qed.

(* ===================================================================== *)
(** ** The claims *)
(* ===================================================================== *)

Lemma sublist_same_length {A} (l k : list A) :
  l `sublist_of` k -> (length k <= length l)%nat -> l = k.
Proof.
  induction 1 as [|x l k _ IH|x l k Hs IH]; simpl; intros Hlen.
  - done.
  - f_equal. apply IH. lia.
  - apply sublist_length in Hs. lia.
Qed.

Lemma sublist_filter_map {A B} (f : A -> B) (p : A -> bool) (l : list A) :
  map f (List.filter p l) `sublist_of` map f l.
Proof.
  induction l as [|x l IH]; simpl; [constructor|].
  destruct (p x); simpl; [by apply sublist_skip|by apply sublist_cons].
Qed.

Lemma destinations_NoDup fl db_dir :
  NoDup (destinations fl db_dir DATABASE_URLS).
Proof.
  change (destinations fl db_dir DATABASE_URLS)
    with (map (destination_of fl db_dir) (map fst DATABASE_URLS)).
  apply NoDup_fmap_2; [apply destination_inj|apply DATABASE_URLS_names_NoDup].
Qed.

(** The tally is full exactly when every target was announced. *)
Lemma all_announced E db_dir (s : list string) :
  s `sublist_of`
    destinations (platform E) db_dir
      (List.filter (fun it => negb (refused E it.2)) DATABASE_URLS) ->
  length s = 3%nat
  <-> forall name, name ∈ target_names ->
        destination_of (platform E) db_dir name ∈ s.
Proof.
  intros Hsub.
  assert (Hsub' : s `sublist_of` destinations (platform E) db_dir DATABASE_URLS).
  { etrans; [exact Hsub|]. apply sublist_filter_map. }
  split.
  - intros Hlen name Hname.
    rewrite (sublist_same_length _ _ Hsub') by (rewrite Hlen; done).
    change (destinations (platform E) db_dir DATABASE_URLS)
      with (map (destination_of (platform E) db_dir) target_names).
    apply list_elem_of_fmap. by exists name.
  - intros Hall. apply Nat.le_antisymm.
    + apply sublist_length in Hsub'. exact Hsub'.
    + change 3%nat with (length (destinations (platform E) db_dir DATABASE_URLS)).
      apply submseteq_length, NoDup_submseteq; [apply destinations_NoDup|].
      intros d Hd.
      change (destinations (platform E) db_dir DATABASE_URLS)
        with (map (destination_of (platform E) db_dir) target_names) in Hd.
      apply list_elem_of_fmap in Hd as (name & -> & Hname). by apply Hall.
Qed.

Lemma main_unfold E db_dir no_backup f :
  main E (Namespace db_dir no_backup) (boot f)
  = match update_database E db_dir (negb no_backup) (after_banner f) with
    | (Returns success, w') => (Returns (if success then 0 else 1), w')
    | (Raises e, w') => (Raises e, w')
    end.
Proof. reflexivity. Qed.



(** On a standard output that takes every line, [download_file] lets no
    exception through: whatever the server and the file system do, it
    returns a boolean.  When opening the URL raises, the result is [False]
    and the report names the class: the HTTP status and reason, with the
    note about blocking for a 403; the reason of a URL error; the text of
    any other exception.  Any later failure also ends in [False] after a
    report.  [True] comes with the success line, and it is what a fully
    streamed body gives. *)
Lemma download_file_returns_when_stdout_accepts E url destination w :
  exists ok l w',
    download_file E url destination w = (Returns ok, w')
    /\ out w' = out w ++ MDownloading destination :: l
    /\ (ok = true <-> MSuccess destination ∈ l)
    /\ match server E url with
       | UrlopenRaises (HTTPError code reason) =>
           ok = false
           /\ l = MHttpError code reason
                    :: (if (code =? 403)%Z then [MBlockedNote] else [])
       | UrlopenRaises (URLError reason) =>
           ok = false /\ l = [MUrlError reason]
       | UrlopenRaises e =>
           ok = false /\ l = [MError (exn_str e)]
       | UrlopenOk resp =>
           (ok = false -> exists e l0, l = l0 ++ report e)
           /\ (fault_free E -> ends_cleanly (body resp) = true ->
               (forall s, content_length resp <> BadHeader s) ->
               fs w !! destination <> Some Dir ->
               ok = true
               /\ fs w' !! destination
                  = Some (File (concat (chunks (body resp)))))
       end.
Proof.
  destruct (download_file_cases E url destination w)
    as (b & l & w' & Hrun & Hout & Hframe & Hcases).
  destruct (download_file_spec E url destination w)
    as (b' & l' & w'' & Hrun' & Hout' & Hsucc & _).
  rewrite Hrun in Hrun'. injection Hrun' as <- <-.
  rewrite Hout in Hout'. apply app_inv_head in Hout'. injection Hout' as <-.
  exists b, l, w'. split; [done|]. split; [done|].
  split.
  { rewrite <- elem_of_successes, Hsucc. destruct b.
    - split; [intros _; left|done].
    - split; [done|]. intros Hin. by apply elem_of_nil in Hin. }
  destruct (server E url) as [e|resp].
  - destruct Hcases as (-> & -> & _). destruct e; split; reflexivity.
  - destruct Hcases as (written & Hpre & Hb & Htrue). split.
    + intros ->. destruct Hb as (e & ->). eauto.
    + intros Hff Hends Hhdr Hdir. specialize (Htrue Hff Hends Hhdr Hdir).
      subst b. destruct Hb as (_ & -> & _ & Hfile). done.
Qed.

(** [download_file] is [download_file_to] on a stream that takes every
    line. *)
Lemma download_file_to_accepting E url dest w :
  download_file_to E accepting_stdout url dest w = download_file E url dest w.
Proof. reflexivity. Qed.

(** On any standard output, [download_file] returns as long as the stream
    takes the lines of the report: an exception gets out only through the
    [print] of an [except] clause. *)
Lemma download_file_to_returns E stdout url dest w :
  (forall e m, m ∈ report e -> stdout m = None) ->
  exists ok w', download_file_to E stdout url dest w = (Returns ok, w').
Proof.
  intros Htakes. unfold download_file_to, try_except.
  match goal with |- context [match ?c w with _ => _ end] =>
    destruct (c w) as [[b|e] w']; [by eauto|]
  end.
  destruct e as [code r|r|s|s]; cbn [dispatch is_HTTPError is_URLError
    is_Exception exn_code exn_reason exn_str]; unfold bind, print_to.
  - rewrite (Htakes (HTTPError code r) (MHttpError code r)) by (cbn; elem).
    cbn. destruct (code =? 403)%Z eqn:Hcode; cbn [when].
    + rewrite (Htakes (HTTPError code r) MBlockedNote)
        by (cbn; rewrite Hcode; elem).
      cbn. eauto.
    + cbn. eauto.
  - rewrite (Htakes (URLError r) (MUrlError r)) by (cbn; elem). cbn. eauto.
  - rewrite (Htakes (OSError s) (MError s)) by (cbn; elem). cbn. eauto.
  - rewrite (Htakes (OtherException s) (MError s)) by (cbn; elem). cbn. eauto.
Qed.

Lemma bind_never_returns {A B} (c : M A) (k : A -> M B) w :
  (forall a w1, is_raise (k a w1).1 = true) ->
  is_raise (bind c k w).1 = true.
Proof.
  intros Hk. unfold bind. destruct (c w) as [[a|e] w1]; [apply Hk|done].
Qed.

(** C3.  The claim fails where standard output cannot encode the check
    mark and the ballot cross of the script's lines.  There the [try] body
    of [download_file] cannot end (its last statement prints the success
    line), and whatever exception it raises, the clause that catches it
    starts by printing a line with the cross: that [print] raises in its
    turn, inside the handler, where nothing catches it.  So on such a
    stream [download_file] raises [UnicodeEncodeError] for every URL and
    destination, whatever the server and the file system do, and returns
    neither [True] nor [False]. *)
Theorem download_file_raises_on_legacy_stdout E url destination w :
  exists w',
    download_file_to E legacy_stdout url destination w
    = (Raises (OtherException charmap_error), w').
Proof.
  unfold download_file_to, try_except.
  match goal with |- context [match ?c w with _ => _ end] =>
    assert (Hbody : is_raise (c w).1 = true);
      [|destruct (c w) as [[b|e] w']; [done|]]
  end.
  { do 4 (apply bind_never_returns; intros ? ?).
    unfold bind, print_to. reflexivity. }
  exists w'.
  destruct e as [code r|r|s|s]; reflexivity.
Qed.

(** The failing input: the server answers 403 for [daily.cvd], and the
    call ends in the exception, with the old file in place and only the
    first line printed. *)
Example blocked_download_raises_on_legacy_stdout :
  download_file_to blocking_server legacy_stdout daily_url "/db/daily.cvd"
    (boot two_old_files)
  = (Raises (OtherException charmap_error),
     World two_old_files [MDownloading "/db/daily.cvd"] 0).
Proof. vm_compute. reflexivity. Qed.

(** A body streamed to the end does not help: the success line is the
    one that cannot be printed. *)
Example complete_download_raises_on_legacy_stdout :
  (download_file_to honest_server legacy_stdout main_url "/db/main.cvd"
     (boot two_old_files)).1
  = Raises (OtherException charmap_error).
Proof. vm_compute. reflexivity. Qed.



(** A target whose URL the server refuses is not among the announced. *)
Lemma refused_not_announced E db_dir name url (s : list string) :
  (name, url) ∈ DATABASE_URLS ->
  refused E url = true ->
  s `sublist_of`
    destinations (platform E) db_dir
      (List.filter (fun it => negb (refused E it.2)) DATABASE_URLS) ->
  destination_of (platform E) db_dir name ∉ s.
Proof.
  intros Hin Href Hsub Hd.
  eapply elem_of_sublist in Hd; [|exact Hsub].
  apply list_elem_of_fmap in Hd as ([n u] & Heq & Hit).
  apply destination_inj in Heq. cbn in Heq. subst n.
  apply list_elem_of_In, filter_In in Hit as [Hit Hok].
  apply list_elem_of_In in Hit. cbn in Hok.
  assert (u = url) as ->.
  { revert Hin Hit. unfold DATABASE_URLS.
    rewrite !elem_of_cons, !elem_of_nil.
    intros [[= -> ->]|[[= -> ->]|[[= -> ->]|[]]]]
           [[=]|[[=]|[[=]|[]]]]; done. }
  by rewrite Href in Hok.
Qed.



(** An entry of the backup directory is one of the run's paths only when
    it bears the name of a target. *)
Lemma backup_entry_in_run_paths fl db_dir entry :
  backup_slot fl db_dir entry ∈ run_paths fl db_dir -> entry ∈ target_names.
Proof.
  unfold run_paths. rewrite elem_of_cons, below_paths_eq.
  intros [Hdb|Hin].
  - exfalso. rewrite backup_slot_eq in Hdb.
    apply (f_equal String.length) in Hdb.
    rewrite !length_append in Hdb.
    pose proof (dir_prefix_length fl db_dir). simpl in Hdb. lia.
  - rewrite backup_slot_eq in Hin.
    apply list_elem_of_fmap in Hin as (s & Heq & Hs).
    apply append_inj in Heq. subst s. revert Hs.
    unfold suffixes. rewrite elem_of_cons, elem_of_app.
    intros [Hs|[Hs|Hs]].
    + apply (f_equal String.length) in Hs. rewrite !length_append in Hs.
      destruct fl; simpl in Hs; lia.
    + exfalso. revert Hs. unfold target_names. cbn [map fst DATABASE_URLS].
      rewrite !elem_of_cons, elem_of_nil.
      destruct fl; vm_compute; intros [H|[H|[H|[]]]]; discriminate H.
    + apply list_elem_of_fmap in Hs as (n & Heq & Hn).
      rewrite <- !append_assoc in Heq. apply append_inj in Heq.
      by subst n.
Qed.

Lemma run_many_frame fl runs db_dir :
  forall w p, p ∉ run_paths fl db_dir ->
    fs (run_many fl runs db_dir w) !! p = fs w !! p.
Proof.
  induction runs as [|[faults srv] runs IH]; intros w p Hp; [done|].
  change (run_many fl ((faults, srv) :: runs) db_dir w)
    with (run_many fl runs db_dir
            (update_database (Env fl faults srv) db_dir true w).2).
  rewrite IH by done.
  destruct (update_database_spec (Env fl faults srv) db_dir true w)
    as (b & l & w' & Hrun & _ & Hframe & _).
  rewrite Hrun. cbn [snd]. by apply Hframe.
Qed.

(** C4. One backup per target name.  When a target has a current file
    and nothing stands in the way of its rotation (no directory sits in
    its slot, and creating the backup directory, removing the old backup
    and renaming the file meet no fault), [backup_existing_files] moves
    the file into the slot that bears its name: the slot then holds that
    file in the place of whatever backup it held before, which is gone,
    and the file is no longer at its destination.  An entry of the backup
    directory under any other name is neither created nor changed, by one
    backup step or by any number of complete runs, whatever fails in them:
    the backups of a name never become more than the one in its slot. *)
Theorem one_backup_per_name :
  (forall E db_dir w name n,
     let fl := platform E in
     let current := destination_of fl db_dir name in
     let slot := backup_slot fl db_dir name in
     name ∈ target_names ->
     fs w !! current = Some n ->
     fs w !! slot <> Some Dir ->
     (forall t, fs_fault E t (OpMakedirs (backup_dir_of fl db_dir)) = None) ->
     (forall t, fs_fault E t (OpRemove slot) = None) ->
     (forall t, fs_fault E t (OpRename current slot) = None) ->
     exists l w',
       backup_existing_files E db_dir w = (Returns true, w')
       /\ out w' = out w ++ l
       /\ MBackedUp name ∈ l
       /\ fs w' !! slot = Some n
       /\ fs w' !! current = None)
  /\ (forall E db_dir w entry,
        entry ∉ target_names ->
        fs (backup_existing_files E db_dir w).2
          !! backup_slot (platform E) db_dir entry
        = fs w !! backup_slot (platform E) db_dir entry)
  /\ (forall fl runs db_dir w entry,
        entry ∉ target_names ->
        fs (run_many fl runs db_dir w) !! backup_slot fl db_dir entry
        = fs w !! backup_slot fl db_dir entry).
Proof.
  split; [|split].
  - intros E db_dir w name n fl current slot Hname Hfile Hslot Hmk Hrm Hren.
    destruct (backup_existing_files_spec E db_dir w)
      as (l & w' & ab & Hrun & Hout & _ & _ & Hab & Hall).
    exists l, w'. split; [done|]. split; [done|].
    rewrite Forall_forall in Hall. specialize (Hall name Hname).
    unfold name_outcome in Hall. fold fl in Hall. fold current slot in Hall.
    destruct Hall as [(Hline & _ & Hmoved & Hgone & _)|(_ & _ & Hcause)].
    { by rewrite Hmoved. }
    exfalso.
    destruct Hcause as [Hnone|[Hstop|(_ & Hblocked)]].
    + by rewrite Hnone in Hfile.
    + destruct (Hab Hstop) as (t & err & Hfault). fold fl in Hfault.
      by rewrite Hmk in Hfault.
    + destruct Hblocked as [Hnone|[Hdir|[(t & err & Hf)|(t & err & Hf)]]].
      * by rewrite Hnone in Hfile.
      * done.
      * by rewrite Hrm in Hf.
      * by rewrite Hren in Hf.
  - intros E db_dir w entry Hentry.
    destruct (backup_existing_files_spec E db_dir w)
      as (l & w' & ab & Hrun & _ & _ & Hframe & _).
    rewrite Hrun. cbn [snd]. apply Hframe. intros Hin.
    apply Hentry, (backup_entry_in_run_paths (platform E) db_dir).
    unfold run_paths. right. exact Hin.
  - intros fl runs db_dir w entry Hentry. apply run_many_frame. intros Hin.
    by apply Hentry, (backup_entry_in_run_paths fl db_dir).
Qed.

(** Nothing in the backup directory is the database directory or a
    current file. *)
Lemma backup_entry_not_current fl db_dir entry :
  backup_slot fl db_dir entry ∉ db_dir :: destinations fl db_dir DATABASE_URLS.
Proof.
  rewrite backup_slot_eq. apply not_elem_of_cons. split.
  - intros Hdb. apply (f_equal String.length) in Hdb.
    rewrite !length_append in Hdb.
    pose proof (dir_prefix_length fl db_dir). simpl in Hdb. lia.
  - intros Hin. apply list_elem_of_fmap in Hin as ([n u] & Heq & Hit).
    apply append_inj in Heq. cbn [fst] in Heq. revert Hit.
    unfold DATABASE_URLS. rewrite !elem_of_cons, elem_of_nil.
    intros [[= -> _]|[[= -> _]|[[= -> _]|[]]]];
      destruct fl; vm_compute in Heq; discriminate Heq.
Qed.







(* ===================================================================== *)
(** ** Concrete runs *)
(* ===================================================================== *)

Example honest_run_exits_0 :
  (main honest_server (Namespace "/db" false) (boot ∅)).1 = Returns 0.
Proof. vm_compute. reflexivity. Qed.

Example blocked_run_exits_1 :
  (main blocking_server (Namespace "/db" false) (boot ∅)).1 = Returns 1.
Proof. vm_compute. reflexivity. Qed.

Example version_exits_0 w :
  main honest_server (ParserExit 0) w = (Returns 0, w).
Proof. reflexivity. Qed.

Example locked_rotation_output :
  out (backup_existing_files locked_main "/db" (boot two_old_files)).2
  = [MCreatedBackupDir "/db/backup";
     MBackupWarning "main.cvd" "Permission denied";
     MBackedUp "daily.cvd"].
Proof. vm_compute. reflexivity. Qed.






(* ===================================================================== *)
(** ** Further properties of the download *)
(* ===================================================================== *)

Lemma attempts_app (l1 l2 : list msg) :
  attempts (l1 ++ l2) = attempts l1 ++ attempts l2.
Proof. apply omap_app. Qed.

Lemma verdict_app (l1 l2 : list msg) :
  verdict (l1 ++ l2) = verdict l1 ++ verdict l2.
Proof. apply List.filter_app. Qed.

(** The lines after the first of a download, or of the backup step, are
    neither the start of a download nor part of the summary. *)
Lemma quiet_lines (l : list msg) :
  Forall (fun m => (phase_of m = Downloading \/ phase_of m = BackingUp
                    \/ m = MBlank)
                   /\ forall d, m <> MDownloading d) l ->
  attempts l = [] /\ verdict l = [].
Proof.
  induction 1 as [|m l [Hm Hd] _ [IH1 IH2]]; [done|].
  unfold attempts, verdict in *.
  destruct m; cbn; try (split; assumption);
    try (by destruct (Hd destination));
    destruct Hm as [Hm|[Hm|Hm]]; discriminate Hm.
Qed.






(** Once the server has answered with a readable header, the download is
    the streaming block followed by one of two ends. *)
Lemma download_file_answered E url dest w resp :
  server E url = UrlopenOk resp ->
  header_ok (content_length resp) = true ->
  download_file E url dest w
  = match with_open_wb E dest
            (read_loop E dest (declared_size (content_length resp))
               (body resp) 0)
            (World (fs w) (out w ++ [MDownloading dest]) (tick w)) with
    | (Returns _, w') =>
        (Returns true, World (fs w') (out w' ++ [MSuccess dest]) (tick w'))
    | (Raises e, w') =>
        (Returns false, World (fs w') (out w' ++ report e) (tick w'))
    end.
Proof.
  intros Hsrv Hh. rewrite download_file_unfold. unfold download_body.
  unfold bind at 1, print at 1. unfold bind at 1, urlopen. rewrite Hsrv.
  set (w0 := World _ _ _).
  assert (Hint : int_content_length (content_length resp) w0
                 = (Returns (declared_size (content_length resp)), w0)).
  { destruct (content_length resp); done. }
  unfold bind at 1. rewrite Hint. unfold bind at 1.
  destruct (with_open_wb E dest _ w0) as [[[]|e] w']; done.
Qed.

Lemma read_loop_total_irrelevant E1 E2 dest stream :
  (forall t op, fs_fault E1 t op = fs_fault E2 t op) ->
  forall ts1 ts2 dl1 dl2 w1 w2,
    fs w1 = fs w2 -> tick w1 = tick w2 ->
    (read_loop E1 dest ts1 stream dl1 w1).1
    = (read_loop E2 dest ts2 stream dl2 w2).1
    /\ fs (read_loop E1 dest ts1 stream dl1 w1).2
       = fs (read_loop E2 dest ts2 stream dl2 w2).2
    /\ tick (read_loop E1 dest ts1 stream dl1 w1).2
       = tick (read_loop E2 dest ts2 stream dl2 w2).2.
Proof.
  intros Hf.
  induction stream as [|[chunk|e] rest IH]; intros ts1 ts2 dl1 dl2 w1 w2 Hfs Htick.
  - done.
  - destruct chunk as [|b chunk]; [done|].
    cbn [read_loop].
    assert (Hstep : forall E ts dl (w : world),
      (f_write E dest (b :: chunk) ;;;
       when (0 <? ts)%Z (print (MProgress (dl + len (b :: chunk)) ts)) ;;;
       read_loop E dest ts rest (dl + len (b :: chunk))) w
      = match fs_fault E (tick w) (OpWrite dest (b :: chunk)) with
        | Some err => (Raises (OSError err), advance w)
        | None =>
            read_loop E dest ts rest (dl + len (b :: chunk))
              (World (<[dest := File (file_content (fs w) dest ++ b :: chunk)]>
                        (fs w))
                 (out w ++ (if (0 <? ts)%Z
                            then [MProgress (dl + len (b :: chunk)) ts]
                            else []))
                 (S (tick w)))
        end).
    { intros E ts dl w. unfold bind, f_write, os_call, when, print, ret.
      destruct (fs_fault E (tick w) _); [done|].
      destruct (0 <? ts)%Z; cbn; by rewrite ?app_nil_r. }
    rewrite !Hstep, Hf, Htick, Hfs.
    destruct (fs_fault E2 (tick w2) (OpWrite dest (b :: chunk)));
      [cbn; by rewrite ?Hfs, ?Htick|].
    by apply IH.
  - done.
Qed.

Lemma with_open_wb_total_irrelevant E1 E2 dest stream ts1 ts2 w :
  (forall t op, fs_fault E1 t op = fs_fault E2 t op) ->
  (with_open_wb E1 dest (read_loop E1 dest ts1 stream 0) w).1
  = (with_open_wb E2 dest (read_loop E2 dest ts2 stream 0) w).1
  /\ fs (with_open_wb E1 dest (read_loop E1 dest ts1 stream 0) w).2
     = fs (with_open_wb E2 dest (read_loop E2 dest ts2 stream 0) w).2.
Proof.
  intros Hf.
  assert (Hopen : open_wb E1 dest w = open_wb E2 dest w).
  { unfold open_wb, os_call. by rewrite Hf. }
  unfold with_open_wb, bind. rewrite Hopen.
  destruct (open_wb E2 dest w) as [[[]|e] u]; [|done].
  pose proof (read_loop_total_irrelevant E1 E2 dest stream Hf
                ts1 ts2 0 0 u u eq_refl eq_refl) as (Hr & Hfs & Htick).
  destruct (read_loop E1 dest ts1 stream 0 u) as [r1 u1].
  destruct (read_loop E2 dest ts2 stream 0 u) as [r2 u2].
  cbn [fst snd] in Hr, Hfs, Htick. subst r2.
  unfold f_close, os_call. rewrite Hf, Htick.
  destruct (fs_fault E2 (tick u2) (OpClose dest)); cbn; by rewrite Hfs.
Qed.

(** X3. The declared content length only feeds the progress display: two
    answers with the same body that differ in a (readable) content-length
    header give the same result and leave the same file system.  So a body
    that stops short of the declared length, but cleanly, is a success. *)
Theorem content_length_is_not_checked E1 E2 url destination w h1 h2 stream :
  (forall t op, fs_fault E1 t op = fs_fault E2 t op) ->
  server E1 url = UrlopenOk (Response h1 stream) ->
  server E2 url = UrlopenOk (Response h2 stream) ->
  header_ok h1 = true ->
  header_ok h2 = true ->
  (download_file E1 url destination w).1
  = (download_file E2 url destination w).1
  /\ fs (download_file E1 url destination w).2
     = fs (download_file E2 url destination w).2.
Proof.
  intros Hf Hs1 Hs2 H1 H2.
  rewrite (download_file_answered E1 url destination w _ Hs1 H1).
  rewrite (download_file_answered E2 url destination w _ Hs2 H2).
  cbn [content_length body]. set (w0 := World _ _ _).
  pose proof (with_open_wb_total_irrelevant E1 E2 destination stream
                (declared_size h1) (declared_size h2) w0 Hf) as [Hr Hfs].
  destruct (with_open_wb E1 destination _ w0) as [r1 u1].
  destruct (with_open_wb E2 destination _ w0) as [r2 u2].
  cbn [fst snd] in Hr, Hfs. subst r2.
  destruct r1 as [[]|e]; cbn; by rewrite Hfs.
Qed.

(** X4. A download changes no path but its destination. *)
Theorem download_touches_only_destination E url destination w p :
  p <> destination ->
  fs (download_file E url destination w).2 !! p = fs w !! p.
Proof.
  intros Hp.
  destruct (download_file_spec E url destination w)
    as (b & l & w' & Hrun & _ & _ & _ & Hframe & _).
  rewrite Hrun. by apply Hframe.
Qed.

(* ===================================================================== *)
(** ** Further properties of the backup step *)
(* ===================================================================== *)






(** X8. The backup step never destroys what a current file held: after it,
    whatever fails, the content is still at the destination or it is in
    the slot of that name. *)
Theorem rotation_keeps_current_content E db_dir w name n :
  name ∈ target_names ->
  fs w !! destination_of (platform E) db_dir name = Some n ->
  fs (backup_existing_files E db_dir w).2
    !! destination_of (platform E) db_dir name = Some n
  \/ fs (backup_existing_files E db_dir w).2
       !! backup_slot (platform E) db_dir name = Some n.
Proof.
  intros Hname Hn.
  destruct (backup_existing_files_spec E db_dir w)
    as (l & w' & ab & Hrun & _ & _ & _ & _ & Hall).
  rewrite Hrun. cbn [snd]. rewrite Forall_forall in Hall.
  destruct (Hall name Hname) as [(_ & _ & Hslot & _)|(Hkept & _)].
  - right. by rewrite Hslot.
  - left. by rewrite Hkept.
Qed.

(* ===================================================================== *)
(** ** Further properties of the controller *)
(* ===================================================================== *)

Lemma prepare_directory_ready E db_dir w w1 :
  prepare_directory E db_dir w = (Returns true, w1) ->
  is_Some (fs w1 !! db_dir)
  /\ prepare_directory E db_dir w1 = (Returns true, w1)
  /\ stops_at_directory E db_dir w = false
  /\ fs w1 !! db_dir
     = match fs w !! db_dir with Some n => Some n | None => Some Dir end
  /\ (forall p, p <> db_dir -> fs w1 !! p = fs w !! p)
  /\ exists l1, out w1 = out w ++ l1
                /\ Forall (fun m => phase_of m = Controlling
                                    /\ is_verdict m = false) l1.
Proof.
  intros Hprep.
  pose proof (prepare_directory_cases E db_dir w) as Hw.
  pose proof (prepare_directory_cases E db_dir w1) as Hw1.
  unfold stops_at_directory.
  destruct (fs w !! db_dir) as [n|] eqn:Hdb.
  - rewrite Hprep in Hw. injection Hw as ->.
    rewrite Hdb in Hw1 |- *. repeat split; eauto.
    exists []. by rewrite app_nil_r.
  - destruct (fs_fault E (tick w) (OpMakedirs db_dir)) as [err|];
      rewrite Hprep in Hw; [discriminate Hw|].
    injection Hw as ->. cbn [fs out] in *.
    rewrite lookup_insert_eq in Hw1 |- *.
    repeat split; eauto.
    + intros p Hp. by rewrite lookup_insert_ne.
    + eexists. split; [reflexivity|]. by repeat constructor.
Qed.

(** Once the directory is there the check has no further part: the run
    is the same run started from the world the check leaves. *)
Lemma run_after_directory E db_dir backup w w1 :
  prepare_directory E db_dir w = (Returns true, w1) ->
  update_database E db_dir backup w = update_database E db_dir backup w1.
Proof.
  intros Hprep.
  destruct (prepare_directory_ready E db_dir w w1 Hprep) as (_ & Hagain & _).
  unfold update_database.
  match goal with |- bind _ ?k _ = _ => set (K := k) end.
  unfold bind. by rewrite Hprep, Hagain.
Qed.

(** A run with backups is the backup step followed by a run without:
    with the directory in place, [update_database] with [backup=True] is
    the header line, [backup_existing_files], and then what
    [update_database] does with [backup=False]. *)
Lemma backup_then_plain_run E db_dir w :
  is_Some (fs w !! db_dir) ->
  update_database E db_dir true w
  = update_database E db_dir false
      (backup_existing_files E db_dir
         (World (fs w) (out w ++ [MBackupHeader]) (tick w))).2.
Proof.
  intros [n Hdb].
  pose proof (prepare_directory_cases E db_dir w) as Hprep.
  rewrite Hdb in Hprep.
  set (wh := World (fs w) (out w ++ [MBackupHeader]) (tick w)).
  destruct (backup_existing_files_spec E db_dir wh)
    as (lb & w2 & ab & Hrun & _ & _ & Hframe & _).
  rewrite Hrun. cbn [snd].
  assert (Hdb2 : fs w2 !! db_dir = Some n).
  { rewrite Hframe; [exact Hdb|]. apply db_dir_not_below. }
  pose proof (prepare_directory_cases E db_dir w2) as Hprep2.
  rewrite Hdb2 in Hprep2.
  assert (Hwhen : (when true
                     (print MBackupHeader ;;;
                      _ <- backup_existing_files E db_dir ;;
                      ret tt)) w = (Returns tt, w2)).
  { cbn [when]. unfold bind, print. fold wh. by rewrite Hrun. }
  unfold update_database.
  unfold bind at 1. rewrite Hprep. cbn [negb].
  unfold bind at 1. rewrite Hwhen.
  symmetry. unfold bind at 1. rewrite Hprep2. cbn [negb when].
  unfold bind at 1. reflexivity.
Qed.

Lemma progress_lines_quiet ts dl cs :
  Forall (fun m => (phase_of m = Downloading \/ phase_of m = BackingUp
                    \/ m = MBlank)
                   /\ forall d, m <> MDownloading d)
    (progress_lines ts dl cs).
Proof.
  unfold progress_lines. destruct (0 <? ts)%Z; [|constructor].
  apply Forall_fmap, Forall_true. intros d. split; [by left|done].
Qed.

Lemma report_quiet e :
  Forall (fun m => (phase_of m = Downloading \/ phase_of m = BackingUp
                    \/ m = MBlank)
                   /\ forall d, m <> MDownloading d)
    (report e).
Proof.
  destruct e as [c r| | |]; cbn; try destruct (c =? 403)%Z;
    repeat constructor; done.
Qed.

Lemma download_file_quiet E url dest w :
  exists l,
    out (download_file E url dest w).2 = out w ++ MDownloading dest :: l
    /\ Forall (fun m => (phase_of m = Downloading \/ phase_of m = BackingUp
                         \/ m = MBlank)
                        /\ forall d, m <> MDownloading d) l.
Proof.
  destruct (download_file_cases E url dest w)
    as (b & l & w' & Hrun & Hout & _ & Hcases).
  rewrite Hrun. exists l. split; [done|].
  destruct (server E url) as [e|resp].
  - destruct Hcases as (_ & -> & _). apply report_quiet.
  - destruct Hcases as (written & _ & Hb & _). destruct b.
    + destruct Hb as (-> & _). apply Forall_app. split.
      * apply progress_lines_quiet.
      * repeat constructor; done.
    + destruct Hb as (e & ->). apply Forall_app. split.
      * apply progress_lines_quiet.
      * apply report_quiet.
Qed.

Lemma download_loop_lines E db_dir items :
  forall cnt w, exists l,
    out (download_loop E db_dir items cnt w).2 = out w ++ l
    /\ attempts l = destinations (platform E) db_dir items
    /\ verdict l = [].
Proof.
  induction items as [|[name url] rest IH]; intros cnt w.
  - exists []. by rewrite app_nil_r.
  - cbn [download_loop]. set (d := path_join (platform E) db_dir name).
    destruct (download_file_quiet E url d w) as (l1 & Hout1 & Hq).
    destruct (download_file_spec E url d w) as (b & l1' & w1 & Hrun & _).
    rewrite Hrun in Hout1. cbn [snd] in Hout1.
    unfold bind at 1. rewrite Hrun. unfold bind at 1, print at 1.
    set (w1' := World _ _ _).
    destruct (IH (if b then (cnt + 1)%Z else cnt) w1') as (l2 & Hout2 & Hatt & Hv).
    exists (MDownloading d :: l1 ++ MBlank :: l2).
    destruct (quiet_lines l1 Hq) as [Ha1 Hv1].
    split.
    { rewrite Hout2. subst w1'. cbn [out]. rewrite Hout1.
      by rewrite <- !app_assoc. }
    change (MDownloading d :: l1 ++ MBlank :: l2)
      with ([MDownloading d] ++ l1 ++ [MBlank] ++ l2).
    rewrite !attempts_app, !verdict_app, Ha1, Hv1, Hatt, Hv. done.
Qed.


Lemma stops_or_ready E db_dir w :
  stops_at_directory E db_dir w = false ->
  exists w1, prepare_directory E db_dir w = (Returns true, w1).
Proof.
  pose proof (prepare_directory_cases E db_dir w) as Hprep.
  unfold stops_at_directory.
  destruct (fs w !! db_dir);
    [|destruct (fs_fault E (tick w) (OpMakedirs db_dir))]; eauto; done.
Qed.

(** A refused URL leaves its destination as the loop found it. *)
Lemma download_loop_refused E db_dir items :
  NoDup (map fst items) ->
  forall cnt w,
    Forall
      (fun it =>
         refused E it.2 = true ->
         fs (download_loop E db_dir items cnt w).2
           !! destination_of (platform E) db_dir it.1
         = fs w !! destination_of (platform E) db_dir it.1)
      items.
Proof.
  induction items as [|[name url] rest IH]; intros Hnd cnt w; [constructor|].
  apply NoDup_cons in Hnd as [Hname Hnd]. specialize (IH Hnd).
  set (d := path_join (platform E) db_dir name).
  destruct (download_file_spec E url d w)
    as (b & l1 & w1 & Hrun & _ & _ & _ & Hframe1 & _ & Hrefused).
  set (w1' := World (fs w1) (out w1 ++ [MBlank]) (tick w1)).
  set (cnt' := if b then (cnt + 1)%Z else cnt).
  assert (Hstep : download_loop E db_dir ((name, url) :: rest) cnt w
                  = download_loop E db_dir rest cnt' w1').
  { cbn [download_loop]. fold d. unfold bind at 1. rewrite Hrun.
    unfold bind at 1, print at 1. reflexivity. }
  rewrite Hstep.
  assert (Hd : d ∉ destinations (platform E) db_dir rest).
  { intros Hin. apply list_elem_of_fmap in Hin as ([n u] & Heq & Hin).
    apply destination_inj in Heq. simpl in Heq. subst n.
    apply Hname. apply list_elem_of_fmap. by exists (name, u). }
  destruct (download_loop_spec E db_dir rest Hnd cnt' w1')
    as (l2 & w' & Hloop & _ & _ & _ & Hframe2 & _).
  constructor.
  - cbn [fst snd]. intros Href. rewrite Hloop. cbn [snd].
    change (destination_of (platform E) db_dir name) with d.
    rewrite Hframe2 by exact Hd. subst w1'. cbn [fs].
    unfold refused in Href.
    destruct (server E url) as [e|resp] eqn:Hsrv; [|done].
    destruct (Hrefused e eq_refl) as (_ & _ & -> & _). done.
  - specialize (IH cnt' w1'). rewrite Forall_forall in IH.
    apply Forall_forall. intros it Hit Href.
    rewrite (IH it Hit Href). subst w1'. cbn [fs]. apply Hframe1.
    intros Heq. apply Hd. rewrite <- Heq.
    apply list_elem_of_fmap. by exists it.
Qed.

(** The run without backups from a world that has the directory. *)
Lemma plain_run_lines E db_dir w :
  is_Some (fs w !! db_dir) ->
  exists ld w',
    update_database E db_dir false w
    = (Returns (bool_decide (length (successes ld) = 3%nat)), w')
    /\ out w' = out w ++ [MDownloadHeader; MSource; MDestination db_dir]
                  ++ ld
                  ++ MRule :: summary_lines (Z.of_nat (length (successes ld)))
    /\ attempts ld = destinations (platform E) db_dir DATABASE_URLS
    /\ verdict ld = []
    /\ (forall p, p ∉ destinations (platform E) db_dir DATABASE_URLS ->
          fs w' !! p = fs w !! p)
    /\ Forall
         (fun it =>
            refused E it.2 = true ->
            fs w' !! destination_of (platform E) db_dir it.1
            = fs w !! destination_of (platform E) db_dir it.1)
         DATABASE_URLS
    /\ exists w3 : world,
         fs w3 = fs w
         /\ (download_loop E db_dir DATABASE_URLS 0 w3).1
            = Returns (Z.of_nat (length (successes ld)))
         /\ fs w' = fs (download_loop E db_dir DATABASE_URLS 0 w3).2.
Proof.
  intros [n Hdb].
  pose proof (prepare_directory_cases E db_dir w) as Hprep.
  rewrite Hdb in Hprep.
  unfold update_database. unfold bind at 1. rewrite Hprep. cbn [negb when].
  unfold bind at 1, ret at 1.
  unfold bind at 1, print at 1. unfold bind at 1, print at 1.
  unfold bind at 1, print at 1. cbn [fs out tick].
  set (w3 := World _ _ _).
  destruct (download_loop_spec E db_dir DATABASE_URLS
              DATABASE_URLS_names_NoDup 0 w3)
    as (ld & w4 & Hloop & Hout4 & _ & _ & Hframe4 & _).
  destruct (download_loop_lines E db_dir DATABASE_URLS 0 w3)
    as (ld' & Hout4' & Hatt & Hv).
  rewrite Hloop in Hout4'. cbn [snd] in Hout4'.
  rewrite Hout4 in Hout4'. apply app_inv_head in Hout4'. subst ld'.
  cbv zeta. unfold bind at 1. rewrite Hloop, Z.add_0_l.
  set (k := length (successes ld)).
  assert (Hend : forall (tally : Z) (u : world),
    (print MRule ;;;
     print (MSummary tally (Z.of_nat (length DATABASE_URLS))) ;;;
     if (tally =? Z.of_nat (length DATABASE_URLS))%Z then
       print MCompleted ;;;
       print MRestart ;;;
       ret true
     else
       print MSomeFailed ;;;
       when (0 <? tally)%Z (print MPartial) ;;;
       ret false) u
    = (Returns (tally =? 3)%Z,
       World (fs u) (out u ++ MRule :: summary_lines tally) (tick u))).
  { intros tally u. unfold bind, print, ret, summary_lines.
    cbn [length DATABASE_URLS fs out tick]. change (Z.of_nat 3) with 3.
    destruct (tally =? 3)%Z; [|destruct (0 <? tally)%Z]; cbn;
      by rewrite <- ?app_assoc. }
  rewrite Hend.
  assert (Hk : (Z.of_nat k =? 3)%Z = bool_decide (k = 3%nat)).
  { destruct (Z.eqb_spec (Z.of_nat k) 3).
    - by rewrite bool_decide_eq_true_2 by lia.
    - by rewrite bool_decide_eq_false_2 by lia. }
  rewrite Hk. exists ld. eexists. split; [reflexivity|]. cbn [fs out].
  split.
  { rewrite Hout4. subst w3. cbn [out]. by rewrite <- !app_assoc. }
  split; [done|]. split; [done|]. split; [exact Hframe4|].
  pose proof (download_loop_refused E db_dir DATABASE_URLS
                DATABASE_URLS_names_NoDup 0 w3) as Href.
  split; [by rewrite Hloop in Href|].
  exists w3. split; [done|]. split; by rewrite Hloop.
Qed.

(** The lines of a run that gets past the directory check: a head with
    no download in it, the lines of the three downloads, the rule and the
    summary. *)
Lemma run_lines E db_dir backup w :
  stops_at_directory E db_dir w = false ->
  exists head ld w',
    update_database E db_dir backup w
    = (Returns (bool_decide (length (successes ld) = 3%nat)), w')
    /\ out w' = out w ++ head ++ ld
                  ++ MRule :: summary_lines (Z.of_nat (length (successes ld)))
    /\ Forall (fun m => phase_of m <> Downloading /\ is_verdict m = false) head
    /\ attempts ld = destinations (platform E) db_dir DATABASE_URLS
    /\ verdict ld = []
    /\ fs w' !! db_dir
       = match fs w !! db_dir with Some n => Some n | None => Some Dir end.
Proof.
  intros Hgo. destruct (stops_or_ready E db_dir w Hgo) as (w1 & Hprep).
  destruct (prepare_directory_ready E db_dir w w1 Hprep)
    as (Hthere & _ & _ & Hdb1 & _ & l1 & Hout1 & Hl1).
  rewrite (run_after_directory E db_dir backup w w1 Hprep).
  assert (Hl1' : Forall (fun m => phase_of m <> Downloading
                                  /\ is_verdict m = false) l1).
  { eapply Forall_impl; [exact Hl1|]. by intros m [-> ?]. }
  assert (Hplain : forall (w2 : world) l2,
    out w2 = out w1 ++ l2 -> fs w2 !! db_dir = fs w1 !! db_dir ->
    Forall (fun m => phase_of m <> Downloading /\ is_verdict m = false) l2 ->
    exists head ld w',
      update_database E db_dir false w2
      = (Returns (bool_decide (length (successes ld) = 3%nat)), w')
      /\ out w' = out w ++ head ++ ld
                    ++ MRule :: summary_lines (Z.of_nat (length (successes ld)))
      /\ Forall (fun m => phase_of m <> Downloading /\ is_verdict m = false)
           head
      /\ attempts ld = destinations (platform E) db_dir DATABASE_URLS
      /\ verdict ld = []
      /\ fs w' !! db_dir
         = match fs w !! db_dir with Some n => Some n | None => Some Dir end).
  { intros w2 l2 Hout2 Hdb2 Hl2.
    destruct (plain_run_lines E db_dir w2)
      as (ld & w' & Hrun & Hout & Hatt & Hv & Hframe & _ & _).
    { by rewrite Hdb2. }
    exists (l1 ++ l2 ++ [MDownloadHeader; MSource; MDestination db_dir]), ld, w'.
    split; [exact Hrun|].
    split; [rewrite Hout, Hout2, Hout1; by rewrite <- !app_assoc|].
    split.
    { rewrite !Forall_app. repeat split; try done. by repeat constructor. }
    split; [done|]. split; [done|].
    rewrite Hframe, Hdb2, Hdb1; [done|].
    pose proof (run_paths_NoDup (platform E) db_dir) as Hnd.
    unfold run_paths in Hnd. apply NoDup_cons in Hnd as [Hdb _].
    intros Hin. apply Hdb. right. apply elem_of_app. left. exact Hin. }
  destruct backup.
  - rewrite (backup_then_plain_run E db_dir w1 Hthere).
    set (wh := World (fs w1) (out w1 ++ [MBackupHeader]) (tick w1)).
    destruct (backup_existing_files_spec E db_dir wh)
      as (lb & w2 & ab & Hrun & Hout & Hph & Hframe & _).
    rewrite Hrun. cbn [snd].
    apply (Hplain w2 (MBackupHeader :: lb)).
    + rewrite Hout. subst wh. cbn [out]. by rewrite <- app_assoc.
    + rewrite Hframe; [done|]. apply db_dir_not_below.
    + constructor; [done|]. eapply Forall_impl; [exact Hph|].
      intros m Hm. split; [by rewrite Hm|]. by destruct m.
  - apply (Hplain w1 []); [by rewrite app_nil_r|done|constructor].
Qed.

Lemma main_run_lines E db_dir no_backup f :
  stops_at_directory E db_dir (after_banner f) = false ->
  exists head ld w',
    main E (Namespace db_dir no_backup) (boot f)
    = (Returns (if bool_decide (length (successes ld) = 3%nat) then 0 else 1),
       w')
    /\ out w' = head ++ ld
                  ++ MRule :: summary_lines (Z.of_nat (length (successes ld)))
    /\ Forall (fun m => phase_of m <> Downloading /\ is_verdict m = false) head
    /\ attempts ld = destinations (platform E) db_dir DATABASE_URLS
    /\ verdict ld = []
    /\ fs w' !! db_dir
       = match f !! db_dir with Some n => Some n | None => Some Dir end.
Proof.
  intros Hgo.
  destruct (run_lines E db_dir (negb no_backup) (after_banner f) Hgo)
    as (head & ld & w' & Hrun & Hout & Hhead & Hatt & Hv & Hdb).
  exists ([MRule; MBanner; MRule; MBlank] ++ head), ld, w'.
  rewrite main_unfold, Hrun. split; [done|].
  split; [rewrite Hout; by rewrite <- app_assoc|].
  split; [apply Forall_app; split; [by repeat constructor|done]|].
  done.
Qed.





(** X11. After a run that gets past the directory check the database
    directory is there: created as a directory when it was missing, and
    otherwise left exactly as it was (whether or not it is a directory is
    never looked at). *)
Theorem directory_is_there_after_run E db_dir no_backup f :
  stops_at_directory E db_dir (after_banner f) = false ->
  fs (main E (Namespace db_dir no_backup) (boot f)).2 !! db_dir
  = match f !! db_dir with Some n => Some n | None => Some Dir end.
Proof.
  intros Hgo.
  destruct (main_run_lines E db_dir no_backup f Hgo)
    as (head & ld & w' & Hrun & _ & _ & _ & _ & Hdb).
  by rewrite Hrun.
Qed.

(** X12. After a run that exits with 0 every destination holds exactly the
    bytes its URL delivered, chunk after chunk, and each of the three
    streams had ended without an error. *)
Theorem successful_run_installs_bodies E db_dir no_backup f :
  exit_status (main E (Namespace db_dir no_backup) (boot f)).1 = 0 ->
  Forall
    (fun it =>
       exists resp,
         server E it.2 = UrlopenOk resp
         /\ ends_cleanly (body resp) = true
         /\ fs (main E (Namespace db_dir no_backup) (boot f)).2
              !! destination_of (platform E) db_dir it.1
            = Some (File (concat (chunks (body resp)))))
    DATABASE_URLS.
Proof.
  rewrite main_unfold.
  destruct (update_database_spec E db_dir (negb no_backup) (after_banner f))
    as (b & l & w' & Hrun & Hout & _ & _ & Hcase).
  rewrite Hrun. cbn [fst snd exit_status]. intros Hexit.
  assert (b = true) as -> by (destruct b; done).
  destruct (stops_at_directory E db_dir (after_banner f));
    [by destruct Hcase as (? & _)|].
  destruct Hcase as (Hb & _ & Hsub & Hitems).
  symmetry in Hb. apply bool_decide_eq_true in Hb.
  pose proof (proj1 (all_announced E db_dir (successes l) Hsub) Hb) as Hall.
  rewrite Forall_forall in Hitems. apply Forall_forall. intros it Hit.
  destruct (Hitems it Hit) as (_ & _ & Hok).
  apply Hok, elem_of_successes, Hall.
  unfold target_names. apply list_elem_of_fmap. by exists it.
Qed.

(** X13. A run with backups leaves, in the slot of a target, what the
    target's file held before the run, not what was downloaded: provided
    the run gets past the directory check and nothing stands in the way of
    that file's rotation, and whether or not the download then succeeds. *)
Theorem backup_holds_previous_content E db_dir f name n :
  let fl := platform E in
  name ∈ target_names ->
  f !! destination_of fl db_dir name = Some n ->
  f !! backup_slot fl db_dir name <> Some Dir ->
  stops_at_directory E db_dir (after_banner f) = false ->
  (forall t, fs_fault E t (OpMakedirs (backup_dir_of fl db_dir)) = None) ->
  (forall t, fs_fault E t (OpRemove (backup_slot fl db_dir name)) = None) ->
  (forall t, fs_fault E t (OpRename (destination_of fl db_dir name)
                             (backup_slot fl db_dir name)) = None) ->
  fs (main E (Namespace db_dir false) (boot f)).2 !! backup_slot fl db_dir name
  = Some n.
Proof.
  intros fl Hname Hfile Hslot Hgo Hmk Hrm Hren.
  rewrite main_unfold. cbn [negb].
  destruct (stops_or_ready E db_dir (after_banner f) Hgo) as (w1 & Hprep).
  destruct (prepare_directory_ready E db_dir _ w1 Hprep)
    as (Hthere & _ & _ & _ & Hframe1 & _).
  rewrite (run_after_directory E db_dir true _ w1 Hprep).
  rewrite (backup_then_plain_run E db_dir w1 Hthere).
  set (wh := World (fs w1) (out w1 ++ [MBackupHeader]) (tick w1)).
  destruct (backup_existing_files_spec E db_dir wh)
    as (lb & w2 & ab & Hrun & _ & _ & _ & Hab & Hall).
  rewrite Hrun. cbn [snd].
  destruct (update_database_spec E db_dir false w2)
    as (b & l & w' & Hrun' & _ & _ & Hplain & _).
  rewrite Hrun'. cbn [snd]. destruct (Hplain eq_refl) as [Hframe _].
  rewrite Hframe by apply backup_entry_not_current.
  assert (Hdb : forall p, p ∈ rotation_paths fl db_dir target_names ->
            fs wh !! p = f !! p).
  { intros p Hp. subst wh. cbn [fs]. rewrite Hframe1; [done|].
    intros ->. by apply (db_dir_not_below fl db_dir). }
  assert (Hfp : fs wh !! destination_of fl db_dir name = Some n).
  { rewrite Hdb; [done|]. right. apply elem_of_app. left.
    apply list_elem_of_fmap. by exists name. }
  assert (Hbp : fs wh !! backup_slot fl db_dir name <> Some Dir).
  { rewrite Hdb; [done|]. right. apply elem_of_app. right.
    apply list_elem_of_fmap. by exists name. }
  assert (ab = false) as ->.
  { destruct ab; [|done]. destruct (Hab eq_refl) as (t & e & Ht).
    fold fl in Ht. by rewrite Hmk in Ht. }
  rewrite Forall_forall in Hall. specialize (Hall name Hname).
  unfold name_outcome, rotation_blocked in Hall. fold fl in Hall.
  destruct Hall as [(_ & _ & Hmoved & _)|(_ & _ & Hwhy)].
  - by rewrite Hmoved.
  - exfalso.
    destruct Hwhy as [H|[H|(_ & [H|[H|[(t & e & H)|(t & e & H)]]])]].
    + by rewrite Hfp in H.
    + done.
    + by rewrite Hfp in H.
    + done.
    + by rewrite Hrm in H.
    + by rewrite Hren in H.
Qed.

(** X14. With [--no-backup], a target whose URL the server refuses keeps
    its old file: after the run the destination holds what it held
    before. *)
Theorem refused_target_keeps_file_without_backup E db_dir f name url :
  (name, url) ∈ DATABASE_URLS ->
  refused E url = true ->
  stops_at_directory E db_dir (after_banner f) = false ->
  fs (main E (Namespace db_dir true) (boot f)).2
    !! destination_of (platform E) db_dir name
  = f !! destination_of (platform E) db_dir name.
Proof.
  intros Hin Href Hgo. rewrite main_unfold. cbn [negb].
  destruct (stops_or_ready E db_dir (after_banner f) Hgo) as (w1 & Hprep).
  destruct (prepare_directory_ready E db_dir _ w1 Hprep)
    as (Hthere & _ & _ & _ & Hframe1 & _).
  rewrite (run_after_directory E db_dir false _ w1 Hprep).
  destruct (plain_run_lines E db_dir w1 Hthere)
    as (ld & w' & Hrun & _ & _ & _ & _ & Hkeeps & _).
  rewrite Hrun. cbn [snd]. rewrite Forall_forall in Hkeeps.
  pose proof (Hkeeps _ Hin Href) as Hkept. cbn [fst snd] in Hkept.
  rewrite Hkept. apply Hframe1.
  intros Heq. apply (db_dir_not_below (platform E) db_dir).
  rewrite <- Heq at 1. right. apply elem_of_app. left.
  apply list_elem_of_fmap. exists name. split; [done|].
  unfold target_names. apply list_elem_of_fmap. by exists (name, url).
Qed.

(** X15. With backups, a target whose URL the server refuses is left
    without a current file: the rotation has moved the old file into its
    slot before the download is tried, and nothing puts it back.  (The
    rotation of that file is taken to meet no obstacle.) *)
Theorem refused_target_is_left_without_file E db_dir f name url n :
  let fl := platform E in
  (name, url) ∈ DATABASE_URLS ->
  refused E url = true ->
  f !! destination_of fl db_dir name = Some n ->
  f !! backup_slot fl db_dir name <> Some Dir ->
  stops_at_directory E db_dir (after_banner f) = false ->
  (forall t, fs_fault E t (OpMakedirs (backup_dir_of fl db_dir)) = None) ->
  (forall t, fs_fault E t (OpRemove (backup_slot fl db_dir name)) = None) ->
  (forall t, fs_fault E t (OpRename (destination_of fl db_dir name)
                             (backup_slot fl db_dir name)) = None) ->
  fs (main E (Namespace db_dir false) (boot f)).2
    !! destination_of fl db_dir name = None
  /\ fs (main E (Namespace db_dir false) (boot f)).2
       !! backup_slot fl db_dir name = Some n
  /\ exit_status (main E (Namespace db_dir false) (boot f)).1 = 1.
Proof.
  intros fl Hin Href Hfile Hslot Hgo Hmk Hrm Hren.
  assert (Hname : name ∈ target_names).
  { unfold target_names. apply list_elem_of_fmap. by exists (name, url). }
  rewrite main_unfold. cbn [negb].
  destruct (stops_or_ready E db_dir (after_banner f) Hgo) as (w1 & Hprep).
  destruct (prepare_directory_ready E db_dir _ w1 Hprep)
    as (Hthere & _ & _ & _ & Hframe1 & _).
  rewrite (run_after_directory E db_dir true _ w1 Hprep).
  rewrite (backup_then_plain_run E db_dir w1 Hthere).
  set (wh := World (fs w1) (out w1 ++ [MBackupHeader]) (tick w1)).
  destruct (backup_existing_files_spec E db_dir wh)
    as (lb & w2 & ab & Hrun & _ & _ & Hframeb & Hab & Hall).
  rewrite Hrun. cbn [snd].
  assert (Hthere2 : is_Some (fs w2 !! db_dir)).
  { rewrite Hframeb; [done|]. apply db_dir_not_below. }
  destruct (plain_run_lines E db_dir w2 Hthere2)
    as (ld & w' & Hrun' & _ & _ & _ & Hframe & Hkeeps & _).
  destruct (update_database_spec E db_dir false w2)
    as (b & l & w'' & Hrun'' & _ & _ & _ & Hcase).
  rewrite Hrun' in Hrun''. injection Hrun'' as <- <-.
  rewrite Hrun'. cbn [fst snd exit_status].
  rewrite Forall_forall in Hkeeps.
  pose proof (Hkeeps _ Hin Href) as Hkept. cbn [fst snd] in Hkept.
  fold fl in Hkept. rewrite Hkept.
  assert (Hslot' : fs w' !! backup_slot fl db_dir name
                   = fs w2 !! backup_slot fl db_dir name).
  { apply Hframe. intros Hp.
    apply (backup_entry_not_current fl db_dir name). by right. }
  rewrite Hslot'.
  assert (Hdb : forall p, p ∈ rotation_paths fl db_dir target_names ->
            fs wh !! p = f !! p).
  { intros p Hp. subst wh. cbn [fs]. rewrite Hframe1; [done|].
    intros ->. by apply (db_dir_not_below fl db_dir). }
  assert (Hfp : fs wh !! destination_of fl db_dir name = Some n).
  { rewrite Hdb; [done|]. right. apply elem_of_app. left.
    apply list_elem_of_fmap. by exists name. }
  assert (Hbp : fs wh !! backup_slot fl db_dir name <> Some Dir).
  { rewrite Hdb; [done|]. right. apply elem_of_app. right.
    apply list_elem_of_fmap. by exists name. }
  assert (ab = false) as ->.
  { destruct ab; [|done]. destruct (Hab eq_refl) as (t & e & Ht).
    fold fl in Ht. by rewrite Hmk in Ht. }
  rewrite Forall_forall in Hall. specialize (Hall name Hname).
  unfold name_outcome, rotation_blocked in Hall. fold fl in Hall.
  assert (Hexit : (if bool_decide (length (successes ld) = 3%nat)
                   then 0 else 1) = 1).
  { destruct (stops_at_directory E db_dir w2);
      [by destruct Hcase as (Hb & _); rewrite Hb|].
    destruct Hcase as (Hb & _ & Hsub & _). rewrite Hb.
    rewrite bool_decide_eq_false_2; [done|]. intros Hlen.
    apply (refused_not_announced E db_dir name url (successes l) Hin Href Hsub).
    by apply (all_announced E db_dir (successes l) Hsub). }
  destruct Hall as [(_ & _ & Hmoved & Hgone & _)|(_ & _ & Hwhy)].
  - by rewrite Hmoved, Hgone.
  - exfalso.
    destruct Hwhy as [H|[H|(_ & [H|[H|[(t & e & H)|(t & e & H)]]])]].
    + by rewrite Hfp in H.
    + done.
    + by rewrite Hfp in H.
    + done.
    + by rewrite Hrm in H.
    + by rewrite Hren in H.
Qed.

(* ===================================================================== *)
(** ** A healthy file system *)
(* ===================================================================== *)






(* ===================================================================== *)
(** ** The run without backups *)
(* ===================================================================== *)



(* ===================================================================== *)
(** ** Concrete runs for the further properties *)
(* ===================================================================== *)

(** The run against the honest server ends with 0 and the four bytes in
    each of the three files. *)
Lemma successful_run_installs_bodies_witness :
  exit_status (main honest_server (Namespace "/db" false) (boot ∅)).1 = 0
  /\ Forall
       (fun it =>
          exists resp,
            server honest_server it.2 = UrlopenOk resp
            /\ ends_cleanly (body resp) = true
            /\ fs (main honest_server (Namespace "/db" false) (boot ∅)).2
                 !! destination_of (platform honest_server) "/db" it.1
               = Some (File (concat (chunks (body resp)))))
       DATABASE_URLS.
Proof.
  assert (H : exit_status
                (main honest_server (Namespace "/db" false) (boot ∅)).1 = 0)
    by (vm_compute; reflexivity).
  split; [exact H|].
  exact (successful_run_installs_bodies honest_server "/db" false ∅ H).
Defined.

(** After the run over two old files the slot of [main.cvd] holds the old
    byte. *)
Lemma backup_holds_previous_content_witness :
  two_old_files !! destination_of Posix "/db" "main.cvd"
  = Some (File [Byte.x31])
  /\ fs (main honest_server (Namespace "/db" false) (boot two_old_files)).2
       !! backup_slot Posix "/db" "main.cvd"
     = Some (File [Byte.x31]).
Proof.
  assert (Hfile : two_old_files !! destination_of Posix "/db" "main.cvd"
                  = Some (File [Byte.x31])) by (vm_compute; reflexivity).
  split; [exact Hfile|].
  apply (backup_holds_previous_content honest_server "/db" two_old_files
           "main.cvd" (File [Byte.x31])).
  - vm_compute. left.
  - exact Hfile.
  - vm_compute. discriminate.
  - vm_compute. reflexivity.
  - intros t. reflexivity.
  - intros t. reflexivity.
  - intros t. reflexivity.
Defined.

(** The run into an empty file system creates [/db]. *)
Lemma directory_is_there_after_run_witness :
  stops_at_directory honest_server "/db" (after_banner ∅) = false
  /\ fs (main honest_server (Namespace "/db" false) (boot ∅)).2 !! "/db"
     = Some Dir.
Proof.
  assert (H : stops_at_directory honest_server "/db" (after_banner ∅) = false)
    by (vm_compute; reflexivity).
  split; [exact H|].
  exact (directory_is_there_after_run honest_server "/db" false ∅ H).
Defined.




(** Two bytes declared as a thousand are as good as two bytes declared as
    nothing. *)
Lemma content_length_is_not_checked_witness :
  server short_server main_url = UrlopenOk short_response
  /\ (download_file short_server main_url "/db/main.cvd" (boot ∅)).1
     = (download_file silent_server main_url "/db/main.cvd" (boot ∅)).1
  /\ fs (download_file short_server main_url "/db/main.cvd" (boot ∅)).2
     = fs (download_file silent_server main_url "/db/main.cvd" (boot ∅)).2.
Proof.
  split; [reflexivity|].
  apply (content_length_is_not_checked short_server silent_server main_url
           "/db/main.cvd" (boot ∅) (IntHeader 1000) NoHeader
           [ReadBytes [Byte.x41; Byte.x42]]).
  - intros t op. reflexivity.
  - reflexivity.
  - reflexivity.
  - reflexivity.
  - reflexivity.
Defined.

Example short_body_is_a_success :
  (download_file short_server main_url "/db/main.cvd" (boot empty_db)).1
  = Returns true.
Proof. vm_compute. reflexivity. Qed.


Lemma download_touches_only_destination_witness :
  "/db/daily.cvd" <> "/db/main.cvd"
  /\ fs (download_file honest_server main_url "/db/main.cvd"
           (boot two_old_files)).2 !! "/db/daily.cvd"
     = two_old_files !! "/db/daily.cvd".
Proof.
  assert (H : "/db/daily.cvd" <> "/db/main.cvd") by discriminate.
  split; [exact H|].
  exact (download_touches_only_destination honest_server main_url
           "/db/main.cvd" (boot two_old_files) "/db/daily.cvd" H).
Defined.




Lemma rotation_keeps_current_content_witness :
  two_old_files !! destination_of Posix "/db" "main.cvd"
  = Some (File [Byte.x31])
  /\ (fs (backup_existing_files locked_main "/db" (boot two_old_files)).2
        !! destination_of Posix "/db" "main.cvd" = Some (File [Byte.x31])
      \/ fs (backup_existing_files locked_main "/db" (boot two_old_files)).2
           !! backup_slot Posix "/db" "main.cvd" = Some (File [Byte.x31])).
Proof.
  assert (H : two_old_files !! destination_of Posix "/db" "main.cvd"
              = Some (File [Byte.x31])) by (vm_compute; reflexivity).
  split; [exact H|].
  apply (rotation_keeps_current_content locked_main "/db" (boot two_old_files)
           "main.cvd" (File [Byte.x31])).
  - vm_compute. left.
  - exact H.
Defined.

Lemma refused_target_keeps_file_without_backup_witness :
  refused blocking_server daily_url = true
  /\ fs (main blocking_server (Namespace "/db" true) (boot two_old_files)).2
       !! destination_of Posix "/db" "daily.cvd"
     = two_old_files !! destination_of Posix "/db" "daily.cvd".
Proof.
  split; [reflexivity|].
  apply (refused_target_keeps_file_without_backup blocking_server "/db"
           two_old_files "daily.cvd" daily_url).
  - unfold DATABASE_URLS, daily_url. right. left.
  - reflexivity.
  - vm_compute. reflexivity.
Defined.

Lemma refused_target_is_left_without_file_witness :
  refused blocking_server daily_url = true
  /\ two_old_files !! destination_of Posix "/db" "daily.cvd"
     = Some (File [Byte.x32])
  /\ fs (main blocking_server (Namespace "/db" false) (boot two_old_files)).2
       !! destination_of Posix "/db" "daily.cvd" = None
  /\ fs (main blocking_server (Namespace "/db" false) (boot two_old_files)).2
       !! backup_slot Posix "/db" "daily.cvd" = Some (File [Byte.x32])
  /\ exit_status
       (main blocking_server (Namespace "/db" false) (boot two_old_files)).1
     = 1.
Proof.
  assert (Hfile : two_old_files !! destination_of Posix "/db" "daily.cvd"
                  = Some (File [Byte.x32])) by (vm_compute; reflexivity).
  split; [reflexivity|]. split; [exact Hfile|].
  apply (refused_target_is_left_without_file blocking_server "/db"
           two_old_files "daily.cvd" daily_url (File [Byte.x32])).
  - unfold DATABASE_URLS, daily_url. right. left.
  - reflexivity.
  - exact Hfile.
  - vm_compute. discriminate.
  - vm_compute. reflexivity.
  - intros t. reflexivity.
  - intros t. reflexivity.
  - intros t. reflexivity.
Defined.



(** The rotation of [main.cvd] over an old backup: the slot that held the
    old backup holds the file, and the file is gone from its place. *)
Lemma one_backup_per_name_witness :
  old_backup_and_file !! backup_slot Posix "/db" "main.cvd"
  = Some (File [Byte.x30])
  /\ exists (l : list msg) w',
       backup_existing_files honest_server "/db" (boot old_backup_and_file)
       = (Returns true, w')
       /\ out w' = l
       /\ MBackedUp "main.cvd" ∈ l
       /\ fs w' !! backup_slot Posix "/db" "main.cvd" = Some (File [Byte.x31])
       /\ fs w' !! destination_of Posix "/db" "main.cvd" = None.
Proof.
  split; [vm_compute; reflexivity|].
  apply (proj1 one_backup_per_name honest_server "/db"
           (boot old_backup_and_file) "main.cvd" (File [Byte.x31])).
  - vm_compute. left.
  - vm_compute. reflexivity.
  - vm_compute. discriminate.
  - intros t. reflexivity.
  - intros t. reflexivity.
  - intros t. reflexivity.
Defined.

